(** * CarGo backend: booking core

    A shallow embedding of the booking workflow of the CarGo backend:
    [routes/bookings.js] (pricing, payment order, payment verification,
    cancellation), [models/Booking.js] (the validators of the schema, the two
    [pre('save')] hooks and the unique index on [bookingId]), and the booking-related handlers of the
    car and admin routers (availability check, administrator status update).

    Conventions of the model.
    - An instant ([Date]) is its number of milliseconds since the epoch, in [Z].
    - [startDate]/[endDate] of a request are the date-only ISO form
      [YYYY-MM-DD], which is what the [`${startDate}T${startTime}`] templates
      of the routes assume; a time of day is the two-digit form [HH:MM].
    - ECMAScript reads a date-only string as UTC midnight and a date-time
      string without offset as local time; [setHours] works on local time.
      The server's offset from UTC is the parameter [tz] (milliseconds,
      local = UTC + tz), taken constant.
    - Prices and amounts are integers.
    - The Mongo collections are a finite map of cars keyed by [_id] and the
      list of booking documents in natural order. *)

From Stdlib Require Import Ascii.
From stdpp Require Import gmap strings list pretty.

Local Open Scope Z_scope.

(** ** Dates *)

Module JsDate.

Definition msPerMinute : Z := 1000 * 60.
Definition msPerHour : Z := 1000 * 60 * 60.
Definition msPerDay : Z := 1000 * 60 * 60 * 24.

(** [YYYY-MM-DD] *)
Record DateStr := mkDate { year : Z; month : Z; day : Z }.

(** [HH:MM] *)
Record TimeStr := mkTime { hh : Z; mm : Z }.

(** Days from 1970-01-01 to a date of the proleptic Gregorian calendar. *)
Definition daysFromCivil (d : DateStr) : Z :=
  let y := if month d <=? 2 then year d - 1 else year d in
  let era := y / 400 in
  let yoe := y - era * 400 in
  let mp := if month d >? 2 then month d - 3 else month d + 9 in
  let doy := (153 * mp + 2) / 5 + day d - 1 in
  let doe := yoe * 365 + yoe / 4 - yoe / 100 + doy in
  era * 146097 + doe - 719468.

Definition timeOfDay (t : TimeStr) : Z := hh t * msPerHour + mm t * msPerMinute.

(** [new Date("YYYY-MM-DD")]: UTC midnight of the date. *)
Definition newDate (d : DateStr) : Z := daysFromCivil d * msPerDay.

(** [new Date(`${date}T${time}`)]: the local wall-clock reading. *)
Definition newDateTime (tz : Z) (d : DateStr) (t : TimeStr) : Z :=
  daysFromCivil d * msPerDay + timeOfDay t - tz.

(** [date.setHours(h, m, s, ms)]: same local calendar day, given local
    time of day. *)
Definition setHours (tz : Z) (t : Z) (h m s ms : Z) : Z :=
  (t + tz) / msPerDay * msPerDay
  + (h * msPerHour + m * msPerMinute + s * 1000 + ms) - tz.

(** [Math.ceil(a / b)] for integers [a] and [b > 0]. *)
Definition ceilDiv (a b : Z) : Z := - ((- a) / b).

End JsDate.

Import JsDate.

(** ** Documents *)

Inductive BookingType := hourly | daily.
Inductive Status := pending | confirmed | cancelled | completed.
Inductive PaymentStatus := payPending | paid | failed | refunded.

Global Instance BookingType_eq_dec : EqDecision BookingType.
Proof. solve_decision. Defined.
Global Instance Status_eq_dec : EqDecision Status.
Proof. solve_decision. Defined.

(** The fields of a car document that the booking routes read or write. *)
Record Car := mkCar {
  car_id : string;
  title : string;
  pricePerDay : Z;
  pricePerHour : Z;
  isAvailable : bool;
  totalBookings : Z
}.

Record Booking := mkBooking {
  _id : string;
  user : string;
  car : string;
  startDate : Z;
  endDate : Z;
  startTime : TimeStr;
  endTime : TimeStr;
  totalAmount : Z;
  bookingType : BookingType;
  duration : Z;
  status : Status;
  paymentStatus : PaymentStatus;
  razorpayPaymentId : option string;
  razorpayOrderId : option string;
  pickupLocation : string;
  dropoffLocation : string;
  specialRequests : option string;
  bookingId : option string
}.

Definition set_status (s : Status) (b : Booking) : Booking :=
  mkBooking (_id b) (user b) (car b) (startDate b) (endDate b) (startTime b)
    (endTime b) (totalAmount b) (bookingType b) (duration b) s
    (paymentStatus b) (razorpayPaymentId b) (razorpayOrderId b)
    (pickupLocation b) (dropoffLocation b) (specialRequests b) (bookingId b).

Definition set_bookingId (i : option string) (b : Booking) : Booking :=
  mkBooking (_id b) (user b) (car b) (startDate b) (endDate b) (startTime b)
    (endTime b) (totalAmount b) (bookingType b) (duration b) (status b)
    (paymentStatus b) (razorpayPaymentId b) (razorpayOrderId b)
    (pickupLocation b) (dropoffLocation b) (specialRequests b) i.

Definition inc_totalBookings (c : Car) : Car :=
  mkCar (car_id c) (title c) (pricePerDay c) (pricePerHour c) (isAvailable c)
    (totalBookings c + 1).

(** The store: the [Car] and [Booking] collections. *)
Record Db := mkDb {
  cars : gmap string Car;
  bookings : list Booking
}.

(** What a handler sends: [res.status(code).json(payload)] on success, or
    [res.status(code).json({ message })] on failure. *)
Inductive Response (A : Type) :=
  | Ok (code : Z) (payload : A)
  | Err (code : Z) (message : string).
Arguments Ok {A} code payload.
Arguments Err {A} code message.

Definition is_ok {A} (r : Response A) : bool :=
  match r with Ok _ _ => true | Err _ _ => false end.

(** ** Pricing: [calculateBookingDetails] *)

Record BookingDetails := mkDetails { det_duration : Z; det_totalAmount : Z }.

Definition calculateBookingDetails (tz : Z) (c : Car)
    (sd ed : DateStr) (st et : TimeStr) (ty : BookingType) : BookingDetails :=
  let start := newDate sd in
  let end_ := newDate ed in
  match ty with
  | daily =>
      let start := setHours tz start 0 0 0 0 in
      let end_ := setHours tz end_ 23 59 59 999 in
      let duration := ceilDiv (end_ - start) (1000 * 60 * 60 * 24) in
      mkDetails duration (duration * pricePerDay c)
  | hourly =>
      let startDateTime := newDateTime tz sd st in
      let endDateTime := newDateTime tz ed et in
      let duration := ceilDiv (endDateTime - startDateTime) (1000 * 60 * 60) in
      mkDetails duration (duration * pricePerHour c)
  end.

(** ** The Booking model: [models/Booking.js] *)

Module BookingModel.

(** What the environment supplies while a document is built and saved:
    [Date.now()], [Math.random().toString(36)] and the driver's fresh
    [ObjectId]. *)
Record Entropy := mkEntropy {
  date_now : Z;
  random36 : string;
  object_id : string
}.

Definition upperChar (c : ascii) : ascii :=
  let n := nat_of_ascii c in
  if ((97 <=? n)%nat && (n <=? 122)%nat)%bool then ascii_of_nat (n - 32) else c.

Fixpoint toUpperCase (s : string) : string :=
  match s with
  | EmptyString => EmptyString
  | String c r => String (upperChar c) (toUpperCase r)
  end.

(** [!this.bookingId]: an absent or empty string is falsy. *)
Definition falsy (o : option string) : bool :=
  match o with
  | None => true
  | Some s => String.eqb s ""
  end.

(** ['CG' + Date.now() + Math.random().toString(36).substr(2, 5).toUpperCase()] *)
Definition newBookingId (e : Entropy) : string :=
  "CG" +:+ pretty (date_now e)
       +:+ toUpperCase (String.substring 2 5 (random36 e)).

(** First [pre('save')] hook: generate booking ID before saving. *)
Definition generateBookingId (e : Entropy) (b : Booking) : Booking :=
  if falsy (bookingId b) then set_bookingId (Some (newBookingId e)) b else b.

(** Second [pre('save')] hook: validate date range.  The hook calls
    [next(error)] and then [next()]; the middleware runner honours the
    first call only, so the save is rejected. *)
Definition validateDateRange (b : Booking) : string + Booking :=
  if startDate b >=? endDate b
  then inl "End date must be after start date"
  else inr b.

(** The hooks in registration order. *)
Definition preSave (e : Entropy) (b : Booking) : string + Booking :=
  validateDateRange (generateBookingId e b).

Definition sameId (i : string) (b : Booking) : bool := String.eqb (_id b) i.

Definition sameBookingId (i : option string) (b : Booking) : bool :=
  bool_decide (bookingId b = i).

(** [insertOne] under the unique indexes on [_id] and [bookingId]. *)
Definition insertOne (b : Booking) (l : list Booking) : option (list Booking) :=
  if (existsb (sameId (_id b)) l || existsb (sameBookingId (bookingId b)) l)%bool
  then None
  else Some (l ++ [b]).

Fixpoint replaceById (b : Booking) (l : list Booking) : option (list Booking) :=
  match l with
  | [] => None
  | x :: r =>
      if sameId (_id b) x then Some (b :: r)
      else match replaceById b r with
           | Some r' => Some (x :: r')
           | None => None
           end
  end.

(** [updateOne({ _id }, { $set: ... })] under the unique index on
    [bookingId]: the other documents must not hold the same value. *)
Definition updateOne (b : Booking) (l : list Booking) : option (list Booking) :=
  if existsb (sameBookingId (bookingId b))
       (List.filter (fun x => negb (sameId (_id b) x)) l)
  then None
  else replaceById b l.

(** Why a [save] fails: the schema validation names the paths it refuses,
    a [pre('save')] hook passes an error to [next], or a unique index
    refuses the write. *)
Inductive SaveError :=
  | ValidationError (paths : list string)
  | HookError (message : string)
  | DuplicateKey.

(** The validators of the schema that a document of the model can fail:
    [min: 0] on [totalAmount], [required] on the two locations (an empty
    string is refused), [maxlength: 200] on [specialRequests], and
    [required] on [bookingId].  The other required paths and the enums hold
    by the types of the fields. *)
Definition invalidPaths (b : Booking) : list string :=
  (if totalAmount b <? 0 then ["totalAmount"] else [])
  ++ (if String.eqb (pickupLocation b) "" then ["pickupLocation"] else [])
  ++ (if String.eqb (dropoffLocation b) "" then ["dropoffLocation"] else [])
  ++ match specialRequests b with
     | Some r => if (200 <? String.length r)%nat then ["specialRequests"] else []
     | None => []
     end
  ++ (if falsy (bookingId b) then ["bookingId"] else []).

Definition schemaValid (b : Booking) : bool :=
  match invalidPaths b with
  | [] => true
  | _ :: _ => false
  end.

(** [doc.save()].  Mongoose validates the document first: its built-in
    validation is the first [pre('save')] middleware, ahead of the hooks of
    the schema.  Then come the two hooks in registration order, then the
    write.  [isNew] is Mongoose's flag: a document made by [new Booking(...)]
    is inserted, one loaded by a query is updated. *)
Definition save (e : Entropy) (isNew : bool) (b : Booking) (db : Db)
    : SaveError + (Booking * Db) :=
  match invalidPaths b with
  | p :: ps => inl (ValidationError (p :: ps))
  | [] =>
      match preSave e b with
      | inl err => inl (HookError err)
      | inr b' =>
          match (if isNew then insertOne b' (bookings db)
                 else updateOne b' (bookings db)) with
          | None => inl DuplicateKey
          | Some l => inr (b', mkDb (cars db) l)
          end
      end
  end.

Definition findOne (q : Booking -> bool) (l : list Booking) : option Booking :=
  List.find q l.

Definition findById (i : string) (l : list Booking) : option Booking :=
  findOne (sameId i) l.

(** [Booking.findByIdAndUpdate(id, { status }, { new: true })]: an update
    query; no [save] middleware runs. *)
Fixpoint findByIdAndUpdate (i : string) (s : Status) (l : list Booking)
    : option Booking * list Booking :=
  match l with
  | [] => (None, [])
  | x :: r =>
      if sameId i x then (Some (set_status s x), set_status s x :: r)
      else let '(o, r') := findByIdAndUpdate i s r in (o, x :: r')
  end.

(** [status: { $in: ['confirmed', 'pending'] }] *)
Definition activeStatus (s : Status) : bool :=
  match s with
  | confirmed | pending => true
  | cancelled | completed => false
  end.

(** The overlap query of the car and booking routers:
    [{ car, status: { $in: [...] }, $or: [{ startDate: { $lte: e }, endDate: { $gte: s } }] }] *)
Definition overlapQuery (carId : string) (s e : Z) (b : Booking) : bool :=
  (String.eqb (car b) carId && activeStatus (status b)
   && (startDate b <=? e) && (endDate b >=? s))%bool.

End BookingModel.

Import BookingModel.

(** ** The routes *)

Record User := mkUser {
  user_id : string;
  name : string;
  email : string;
  phone : string;
  isAdmin : bool
}.

Record OrderOptions := mkOptions {
  amount : Z;
  currency : string;
  receipt : string;
  payment_capture : Z
}.

Record ProviderOrder := mkOrder {
  order_id : string;
  order_currency : string;
  order_amount : Z
}.

Record OrderReply := mkReply {
  reply_orderId : string;
  reply_currency : string;
  reply_amount : Z;
  reply_key_id : string;
  reply_carTitle : string;
  reply_userName : string;
  reply_userEmail : string;
  reply_userPhone : string
}.

Record BookingForm := mkForm {
  carId : string;
  form_startDate : DateStr;
  form_endDate : DateStr;
  form_startTime : TimeStr;
  form_endTime : TimeStr;
  form_bookingType : BookingType;
  form_pickupLocation : string;
  form_dropoffLocation : string;
  form_specialRequests : option string
}.

Record VerifyRequest := mkVerify {
  razorpay_order_id : string;
  razorpay_payment_id : string;
  razorpay_signature : string;
  bookingDetails : BookingForm
}.

Record Availability := mkAvailability {
  available : bool;
  availability_message : string
}.

Section Routes.

(** Server time zone offset, see the conventions above. *)
Variable tz : Z.
(** [process.env.RAZORPAY_KEY_ID] and [process.env.RAZORPAY_KEY_SECRET]. *)
Variable RAZORPAY_KEY_ID : string.
Variable RAZORPAY_KEY_SECRET : string.
(** [crypto.createHmac('sha256', key).update(msg).digest('hex')] *)
Variable hmacSha256Hex : string -> string -> string.
(** [razorpay.orders.create]; [None] is a rejected promise. *)
Variable razorpayOrdersCreate : OrderOptions -> option ProviderOrder.

(** [POST /:id/check-availability] of the car router. *)
Definition checkAvailability (id : string) (sd ed : DateStr) (db : Db)
    : Response Availability :=
  match cars db !! id with
  | None => Err 404 "Car not found"
  | Some c =>
      let overlappingBooking :=
        findOne (overlapQuery id (newDate sd) (newDate ed)) (bookings db) in
      let isAvail :=
        (negb (bool_decide (is_Some overlappingBooking)) && isAvailable c)%bool in
      Ok 200 (mkAvailability isAvail
                (if isAvail then "Car is available for the selected dates"
                 else "Car is not available for the selected dates"))
  end.

(** [POST /create-razorpay-order].  Besides the response and the store,
    the handler returns the orders it asked the payment provider for. *)
Definition createRazorpayOrder (now : Z) (u : User) (f : BookingForm) (db : Db)
    : Response OrderReply * Db * list OrderOptions :=
  match cars db !! carId f with
  | None => (Err 404 "Car not found", db, [])
  | Some c =>
      let total :=
        det_totalAmount
          (calculateBookingDetails tz c (form_startDate f) (form_endDate f)
             (form_startTime f) (form_endTime f) (form_bookingType f)) in
      if total <=? 0
      then (Err 400 "Calculated total amount is zero or negative.", db, [])
      else
        let options :=
          mkOptions (total * 100) "INR" ("receipt_order_" +:+ pretty now) 1 in
        match razorpayOrdersCreate options with
        | None =>
            (Err 500 "Server error while creating payment order", db, [options])
        | Some order =>
            (Ok 200 (mkReply (order_id order) (order_currency order)
                       (order_amount order) RAZORPAY_KEY_ID (title c)
                       (name u) (email u) (phone u)),
             db, [options])
        end
  end.

Definition expectedSignature (r : VerifyRequest) : string :=
  hmacSha256Hex RAZORPAY_KEY_SECRET
    (razorpay_order_id r +:+ "|" +:+ razorpay_payment_id r).

(** The interval of the re-check in [/verify-payment]. *)
Definition startDateTimeForCheck (f : BookingForm) : Z :=
  newDateTime tz (form_startDate f) (form_startTime f).
Definition endDateTimeForCheck (f : BookingForm) : Z :=
  newDateTime tz (form_endDate f) (form_endTime f).

(** [new Booking({ ... })] of [/verify-payment]; the schema casts the two
    date strings with [new Date]. *)
Definition newBooking (e : Entropy) (u : User) (r : VerifyRequest)
    (d : BookingDetails) : Booking :=
  let f := bookingDetails r in
  mkBooking (object_id e) (user_id u) (carId f)
    (newDate (form_startDate f)) (newDate (form_endDate f))
    (form_startTime f) (form_endTime f)
    (det_totalAmount d) (form_bookingType f) (det_duration d)
    confirmed paid
    (Some (razorpay_payment_id r)) (Some (razorpay_order_id r))
    (form_pickupLocation f) (form_dropoffLocation f)
    (form_specialRequests f) None.

(** [POST /verify-payment] *)
Definition verifyPayment (e : Entropy) (u : User) (r : VerifyRequest) (db : Db)
    : Response Booking * Db :=
  if negb (String.eqb (expectedSignature r) (razorpay_signature r))
  then (Err 400 "Payment verification failed: Invalid signature", db)
  else
    let f := bookingDetails r in
    match cars db !! carId f with
    | None => (Err 404 "Car not found", db)
    | Some c =>
        if negb (isAvailable c)
        then (Err 400 "Car is not available", db)
        else
          match findOne (overlapQuery (carId f) (startDateTimeForCheck f)
                                      (endDateTimeForCheck f))
                        (bookings db) with
          | Some _ =>
              (Err 400 "Car is no longer available for the selected dates/times.", db)
          | None =>
              let d :=
                calculateBookingDetails tz c (form_startDate f) (form_endDate f)
                  (form_startTime f) (form_endTime f) (form_bookingType f) in
              match save e true (newBooking e u r d) db with
              | inl _ =>
                  (Err 500 "Server error during payment verification or booking creation", db)
              | inr (booking, db') =>
                  (Ok 201 booking,
                   mkDb (alter inc_totalBookings (carId f) (cars db'))
                        (bookings db'))
              end
          end
    end.

(** [PATCH /:id/cancel] *)
Definition cancelBooking (now : Z) (e : Entropy) (u : User) (id : string) (db : Db)
    : Response Booking * Db :=
  match findById id (bookings db) with
  | None => (Err 404 "Booking not found", db)
  | Some booking =>
      if negb (String.eqb (user booking) (user_id u))
      then (Err 403 "Access denied", db)
      else if startDate booking <=? now
      then (Err 400 "Cannot cancel booking that has already started", db)
      else if bool_decide (status booking = cancelled)
      then (Err 400 "Booking is already cancelled", db)
      else
        match save e false (set_status cancelled booking) db with
        | inl _ => (Err 500 "Server error while cancelling booking", db)
        | inr (booking', db') => (Ok 200 booking', db')
        end
  end.

(** [PATCH /bookings/:id/status] of the admin router. *)
Definition updateBookingStatus (id : string) (s : Status) (db : Db)
    : Response Booking * Db :=
  match findByIdAndUpdate id s (bookings db) with
  | (None, _) => (Err 404 "Booking not found", db)
  | (Some booking, l) => (Ok 200 booking, mkDb (cars db) l)
  end.

(** The requests that read or write the [Booking] collection. *)
Inductive Request :=
  | CheckAvailability (id : string) (sd ed : DateStr)
  | CreateRazorpayOrder (now : Z) (u : User) (f : BookingForm)
  | VerifyPayment (e : Entropy) (u : User) (r : VerifyRequest)
  | CancelBooking (now : Z) (e : Entropy) (u : User) (id : string)
  | UpdateBookingStatus (id : string) (s : Status).

(** The store after a request is served. *)
Definition serve (q : Request) (db : Db) : Db :=
  match q with
  | CheckAvailability _ _ _ => db
  | CreateRazorpayOrder now u f => snd (fst (createRazorpayOrder now u f db))
  | VerifyPayment e u r => snd (verifyPayment e u r db)
  | CancelBooking now e u id => snd (cancelBooking now e u id db)
  | UpdateBookingStatus id s => snd (updateBookingStatus id s db)
  end.

End Routes.

(** ** Invariants of the store *)

(** Every stored booking starts strictly before it ends. *)
Definition datesOrdered (db : Db) : Prop :=
  Forall (fun b => startDate b < endDate b) (bookings db).

(** The unique indexes hold, and every stored booking passes the validators
    of the schema, so has its identifier. *)
Definition idsUnique (db : Db) : Prop :=
  List.NoDup (List.map _id (bookings db))
  /\ List.NoDup (List.map bookingId (bookings db))
  /\ Forall (fun b => schemaValid b = true) (bookings db).

(** An active booking of the car whose closed interval meets the closed
    interval [[s, e]]. *)
Definition conflicting (id : string) (s e : Z) (l : list Booking) : Prop :=
  exists b, In b l /\ car b = id
            /\ (status b = confirmed \/ status b = pending)
            /\ startDate b <= e /\ endDate b >= s.

(** The answer of [/verify-payment] to a wrong signature. *)
Definition invalidSignature : Response Booking :=
  Err 400 "Payment verification failed: Invalid signature".

(** The two identifiers of a stored booking. *)
Definition idPair (b : Booking) : string * option string := (_id b, bookingId b).

(** ** Further routes *)

(** The remaining handlers work on documents whose identifiers are
    well-formed [ObjectId]s; a malformed identifier makes the driver raise a
    cast error before any query runs and is not part of the model. *)

(** [Model.countDocuments(filter)] *)
Definition countDocuments {A : Type} (q : A -> bool) (l : list A) : Z :=
  Z.of_nat (length (List.filter q l)).

(** [{ car: id, status: { $in: ['confirmed', 'pending'] } }] *)
Definition activeOnCar (id : string) (b : Booking) : bool :=
  (String.eqb (car b) id && activeStatus (status b))%bool.

(** [DELETE /cars/:id] of the admin router. *)
Definition deleteCar (id : string) (db : Db) : Response string * Db :=
  let activeBookings := countDocuments (activeOnCar id) (bookings db) in
  if activeBookings >? 0
  then (Err 400 "Cannot delete car with active bookings", db)
  else
    match cars db !! id with
    | None => (Err 404 "Car not found", db)
    | Some _ =>
        (Ok 200 "Car deleted successfully",
         mkDb (delete id (cars db)) (bookings db))
    end.

(** A booking with its populated references: [populate('car', ...)] leaves
    [null] when the car is gone. *)
Record BookingView := mkView {
  view_booking : Booking;
  view_car : option Car;
  view_user : User
}.

(** [GET /:id] of the booking router.  [users] is the [User] collection,
    keyed by [_id]; when the owner's document is gone [populate] leaves
    [null], reading [booking.user._id] throws and the handler answers 500. *)
Definition getBooking (users : gmap string User) (u : User) (id : string)
    (db : Db) : Response BookingView :=
  match findById id (bookings db) with
  | None => Err 404 "Booking not found"
  | Some booking =>
      match users !! user booking with
      | None => Err 500 "Server error while fetching booking"
      | Some owner =>
          if (negb (String.eqb (user booking) (user_id u)) && negb (isAdmin u))%bool
          then Err 403 "Access denied"
          else Ok 200 (mkView booking (cars db !! car booking) owner)
      end
  end.

(** The [pagination] object of the list responses. *)
Record Pagination := mkPagination {
  currentPage : Z;
  totalPages : Z;
  totalItems : Z;
  hasNext : bool;
  hasPrev : bool
}.

(** [.skip(skip).limit(limit)] on the sorted result, for [skip >= 0] and
    [limit >= 1]. *)
Definition skipLimit {A : Type} (skip limit : Z) (l : list A) : list A :=
  take (Z.to_nat limit) (drop (Z.to_nat skip) l).

Definition paginationOf (page limit skip len total : Z) : Pagination :=
  mkPagination page (ceilDiv total limit) total (skip + len <? total) (page >? 1).

(** The [status] of a query string: absent or empty, one of the four values
    of the schema, or any other text, which no document matches. *)
Inductive StatusQuery :=
  | AnyStatus
  | StatusIs (s : Status)
  | StatusOther.

Definition matchesStatus (q : StatusQuery) (b : Booking) : bool :=
  match q with
  | AnyStatus => true
  | StatusIs s => bool_decide (status b = s)
  | StatusOther => false
  end.

(** The query of the public car list.  The text, brand, fuel and transmission
    criteria bear on fields of the car model that the booking core does not
    read; they are the predicate [otherCriteria] of the section below. *)
Record CarQuery := mkCarQuery {
  q_page : Z;
  q_limit : Z;
  q_minPrice : option Z;
  q_maxPrice : option Z;
  q_startDate : option DateStr;
  q_endDate : option DateStr
}.

(** [Booking.distinct('car', { status: { $in: [...] }, $or: [{ startDate: { $lte: e }, endDate: { $gte: s } }] })] *)
Definition bookedCarIds (s e : Z) (l : list Booking) : list string :=
  remove_dups
    (List.map car
       (List.filter
          (fun b => (activeStatus (status b) && (startDate b <=? e)
                     && (endDate b >=? s))%bool) l)).

(** [if (minPrice || maxPrice) { ... $gte ... $lte ... }] *)
Definition priceInRange (lo hi : option Z) (c : Car) : bool :=
  (match lo with Some m => pricePerDay c >=? m | None => true end
   && match hi with Some m => pricePerDay c <=? m | None => true end)%bool.

Section Lists.

(** The store's sort of a result by the requested key, for bookings (newest
    first) and for cars. *)
Variable sortBookings : list Booking -> list Booking.
Variable sortCars : list (string * Car) -> list (string * Car).
Variable otherCriteria : Car -> bool.

(** [GET /my-bookings] *)
Definition myBookings (u : User) (page limit : Z) (sq : StatusQuery) (db : Db)
    : Response (list (Booking * option Car) * Pagination) :=
  let filter b := (String.eqb (user b) (user_id u) && matchesStatus sq b)%bool in
  let skip := (page - 1) * limit in
  let found :=
    skipLimit skip limit (sortBookings (List.filter filter (bookings db))) in
  let total := countDocuments filter (bookings db) in
  Ok 200 (List.map (fun b => (b, cars db !! car b)) found,
          paginationOf page limit skip (Z.of_nat (length found)) total).

(** The filter object of [GET /] of the car router. *)
Definition carFilter (q : CarQuery) (db : Db) (d : string * Car) : bool :=
  (isAvailable (snd d) && otherCriteria (snd d)
   && priceInRange (q_minPrice q) (q_maxPrice q) (snd d)
   && match q_startDate q, q_endDate q with
      | Some sd, Some ed =>
          negb (bool_decide
                  (fst d ∈ bookedCarIds (newDate sd) (newDate ed) (bookings db)))
      | _, _ => true
      end)%bool.

(** [GET /] of the car router, for a validated query. *)
Definition listCars (q : CarQuery) (db : Db)
    : Response (list (string * Car) * Pagination) :=
  let skip := (q_page q - 1) * q_limit q in
  let matching := List.filter (carFilter q db) (map_to_list (cars db)) in
  let found := skipLimit skip (q_limit q) (sortCars matching) in
  let total := Z.of_nat (length matching) in
  Ok 200 (found,
          paginationOf (q_page q) (q_limit q) skip (Z.of_nat (length found)) total).

End Lists.

(** [{ $match: { status: 'completed' } }, { $group: { _id: null, totalRevenue: { $sum: '$totalAmount' } } }]
    and [revenueResult[0]?.totalRevenue || 0] of the admin dashboard. *)
Definition totalRevenue (l : list Booking) : Z :=
  fold_right Z.add 0
    (List.map totalAmount
       (List.filter (fun b => bool_decide (status b = completed)) l)).


(** ** Sample data *)

Module Sample.

(** India Standard Time, UTC+05:30. *)
Definition ist : Z := 19800000.

Definition carSwift : Car := mkCar "c1" "Swift" 1500 200 true 0.

Definition alice : User := mkUser "u1" "Alice" "alice@example.com" "100" false.
Definition bob : User := mkUser "u2" "Bob" "bob@example.com" "200" false.

(** A stand-in for the keyed hash, enough to run the handlers. *)
Definition toyHmac (key msg : string) : string := key +:+ "#" +:+ msg.

(** A provider that accepts every order. *)
Definition provider (o : OrderOptions) : option ProviderOrder :=
  Some (mkOrder "order_1" (currency o) (amount o)).

Definition entropy : Entropy := mkEntropy 1704067200000 "0.k3j9x2a7" "b1".

Definition form (ty : BookingType) (st et : TimeStr) : BookingForm :=
  mkForm "c1" (mkDate 2024 1 1) (mkDate 2024 1 3) st et ty
    "Airport" "Station" None.

Definition request (ty : BookingType) (st et : TimeStr) : VerifyRequest :=
  mkVerify "order_1" "pay_1" (toyHmac "S" "order_1|pay_1") (form ty st et).

Definition emptyDb : Db := mkDb {[ "c1" := carSwift ]} [].

(** A confirmed booking of Alice from 2024-01-01 to 2024-01-03. *)
Definition booking1 : Booking :=
  mkBooking "b1" "u1" "c1" (newDate (mkDate 2024 1 1))
    (newDate (mkDate 2024 1 3)) (mkTime 10 0) (mkTime 10 0) 4500 daily 3
    confirmed paid (Some "pay_1") (Some "order_1") "Airport" "Station" None
    (Some "CG1704067200000K3J9X").

Definition db1 : Db := mkDb {[ "c1" := carSwift ]} [booking1].

(** A stored document whose dates are not ordered. *)
Definition bookingFlat : Booking :=
  mkBooking "b9" "u1" "c1" 5 5 (mkTime 10 0) (mkTime 10 0) 0 hourly 0
    confirmed paid None None "Airport" "Station" None (Some "CG9").

Definition dbFlat : Db := mkDb {[ "c1" := carSwift ]} [bookingFlat].

End Sample.

(** ** Further sample data *)

Module Fixtures.

Import Sample.

Definition users : gmap string User := {[ "u1" := alice; "u2" := bob ]}.

(** The sample booking once cancelled: the car has no active booking left. *)
Definition dbClosed : Db :=
  mkDb {[ "c1" := carSwift ]} [set_status cancelled booking1].

(** An hourly request within one date, 10:00 to 12:00. *)
Definition sameDayForm : BookingForm :=
  mkForm "c1" (mkDate 2024 1 1) (mkDate 2024 1 1) (mkTime 10 0) (mkTime 12 0)
    hourly "Airport" "Station" None.

(** Cars up to 2000 a day that are free from 2024-01-04 to 2024-01-06. *)
Definition carQuery : CarQuery :=
  mkCarQuery 1 12 None (Some 2000) (Some (mkDate 2024 1 4))
    (Some (mkDate 2024 1 6)).



Definition newestFirst (l : list Booking) : list Booking := rev l.
Definition asStored (l : list (string * Car)) : list (string * Car) := l.
Definition anyCar (c : Car) : bool := true.

End Fixtures.

(** * Properties *)

(** ** Arithmetic of [ceilDiv] and of the calendar *)

Lemma ceilDiv_bounds (a b : Z) :
  0 < b -> b * (ceilDiv a b - 1) < a <= b * ceilDiv a b.
Proof.
  intros Hb. unfold ceilDiv.
  pose proof (Z.mul_div_le (- a) b Hb).
  pose proof (Z.mul_succ_div_gt (- a) b Hb).
  lia.
Qed.

Lemma ceilDiv_unique (a b q : Z) :
  0 < b -> b * (q - 1) < a <= b * q -> ceilDiv a b = q.
Proof.
  intros Hb Hq. unfold ceilDiv.
  assert (H : - q = - a / b).
  { apply (Z.div_unique (- a) b (- q) (b * q - a)); lia. }
  lia.
Qed.

Lemma msPerDay_val : msPerDay = 86400000.
Proof. reflexivity. Qed.

Lemma msPerHour_val : msPerHour = 3600000.
Proof. reflexivity. Qed.

Lemma msPerMinute_val : msPerMinute = 60000.
Proof. reflexivity. Qed.

Lemma localDay_shift (d tz : Z) :
  (d * msPerDay + tz) / msPerDay = d + tz / msPerDay.
Proof. rewrite msPerDay_val. apply Z.div_add_l. lia. Qed.

Lemma setHours_newDate (tz : Z) (d : DateStr) (h m s ms : Z) :
  setHours tz (newDate d) h m s ms
  = (daysFromCivil d + tz / msPerDay) * msPerDay
    + (h * msPerHour + m * msPerMinute + s * 1000 + ms) - tz.
Proof. unfold setHours, newDate. now rewrite localDay_shift. Qed.

Lemma daily_span (tz : Z) (sd ed : DateStr) :
  setHours tz (newDate ed) 23 59 59 999 - setHours tz (newDate sd) 0 0 0 0
  = (daysFromCivil ed - daysFromCivil sd) * msPerDay + (msPerDay - 1).
Proof.
  rewrite !setHours_newDate, msPerDay_val, msPerHour_val, msPerMinute_val. lia.
Qed.

Lemma daily_duration (tz : Z) (c : Car) (sd ed : DateStr) (st et : TimeStr) :
  det_duration (calculateBookingDetails tz c sd ed st et daily)
  = daysFromCivil ed - daysFromCivil sd + 1.
Proof.
  cbn [calculateBookingDetails det_duration].
  rewrite daily_span. apply ceilDiv_unique; rewrite ?msPerDay_val; lia.
Qed.

(** ** C4: daily pricing *)

(** C4, as the code has it.  A daily booking is priced on its start instant
    moved to 00:00:00.000 and its end instant moved to 23:59:59.999 of their
    local calendar dates; the duration is the ceiling of the millisecond
    difference over one day and the total is the duration times
    [pricePerDay].  Both end days are counted: the duration is the number of
    dates between the two plus one, so 2024-01-01 to 2024-01-03 lasts 3 days
    and costs 3 times [pricePerDay]. *)
Theorem C4_daily_pricing (tz : Z) (c : Car) (sd ed : DateStr) (st et : TimeStr) :
  let start := setHours tz (newDate sd) 0 0 0 0 in
  let end_ := setHours tz (newDate ed) 23 59 59 999 in
  let r := calculateBookingDetails tz c sd ed st et daily in
  ((start + tz) mod msPerDay = 0 /\ start <= newDate sd < start + msPerDay)
  /\ ((end_ + tz) mod msPerDay = msPerDay - 1
      /\ end_ - msPerDay < newDate ed <= end_)
  /\ msPerDay * (det_duration r - 1) < end_ - start <= msPerDay * det_duration r
  /\ det_totalAmount r = det_duration r * pricePerDay c
  /\ det_duration r = daysFromCivil ed - daysFromCivil sd + 1
  /\ calculateBookingDetails tz c (mkDate 2024 1 1) (mkDate 2024 1 3) st et daily
     = mkDetails 3 (3 * pricePerDay c).
Proof.
  intros start end_ r.
  assert (HD : 0 < msPerDay) by (rewrite msPerDay_val; lia).
  assert (Hs : start + tz = (newDate sd + tz) / msPerDay * msPerDay).
  { subst start. unfold setHours. rewrite msPerHour_val, msPerMinute_val. lia. }
  assert (He : end_ + tz = (newDate ed + tz) / msPerDay * msPerDay + (msPerDay - 1)).
  { subst end_. unfold setHours.
    rewrite msPerDay_val, msPerHour_val, msPerMinute_val. lia. }
  pose proof (Z.mul_div_le (newDate sd + tz) msPerDay HD) as Hs1.
  pose proof (Z.mul_succ_div_gt (newDate sd + tz) msPerDay HD) as Hs2.
  pose proof (Z.mul_div_le (newDate ed + tz) msPerDay HD) as He1.
  pose proof (Z.mul_succ_div_gt (newDate ed + tz) msPerDay HD) as He2.
  repeat split.
  - rewrite Hs. apply Z.mod_mul. lia.
  - lia.
  - lia.
  - rewrite He, Z.add_comm, Z.mod_add by lia. apply Z.mod_small. lia.
  - lia.
  - lia.
  - apply (ceilDiv_bounds (end_ - start) (1000 * 60 * 60 * 24)). lia.
  - apply (ceilDiv_bounds (end_ - start) (1000 * 60 * 60 * 24)). lia.
  - apply daily_duration.
  - pose proof (daily_duration tz c (mkDate 2024 1 1) (mkDate 2024 1 3) st et) as Hd.
    change (daysFromCivil (mkDate 2024 1 3) - daysFromCivil (mkDate 2024 1 1) + 1)
      with 3 in Hd.
    cbn [calculateBookingDetails det_duration] in Hd |- *.
    now rewrite Hd.
Qed.

(** ** C5: hourly pricing *)

(** C5.  An hourly booking is priced on the instants made of each date and
    its time of day; the duration is the ceiling of the millisecond
    difference over one hour, so a started hour counts as a whole one, and
    the total is the duration times [pricePerHour].  A booking of 1 hour
    1 minute lasts 2 and costs 2 times [pricePerHour]. *)
Theorem C5_hourly_pricing (tz : Z) (c : Car) (sd ed : DateStr) (st et : TimeStr) :
  let startDateTime := newDateTime tz sd st in
  let endDateTime := newDateTime tz ed et in
  let r := calculateBookingDetails tz c sd ed st et hourly in
  endDateTime - startDateTime
    = (daysFromCivil ed * msPerDay + timeOfDay et)
      - (daysFromCivil sd * msPerDay + timeOfDay st)
  /\ msPerHour * (det_duration r - 1) < endDateTime - startDateTime
       <= msPerHour * det_duration r
  /\ det_totalAmount r = det_duration r * pricePerHour c
  /\ calculateBookingDetails tz c sd sd st (mkTime (hh st + 1) (mm st + 1)) hourly
     = mkDetails 2 (2 * pricePerHour c).
Proof.
  intros a b r. split; [subst a b; unfold newDateTime; lia|].
  split; [apply (ceilDiv_bounds (b - a) (1000 * 60 * 60)); lia|].
  split; [reflexivity|].
  cbn [calculateBookingDetails].
  assert (H : ceilDiv (newDateTime tz sd (mkTime (hh st + 1) (mm st + 1))
                       - newDateTime tz sd st) (1000 * 60 * 60) = 2).
  { apply ceilDiv_unique; [lia|].
    unfold newDateTime, timeOfDay. cbn [hh mm].
    rewrite msPerHour_val, msPerMinute_val. lia. }
  now rewrite H.
Qed.

(** ** Queries over the booking collection *)

Lemma activeStatus_true (s : Status) :
  activeStatus s = true <-> s = confirmed \/ s = pending.
Proof. destruct s; cbn; intuition congruence. Qed.

Lemma overlapQuery_true (id : string) (s e : Z) (b : Booking) :
  overlapQuery id s e b = true
  <-> car b = id /\ (status b = confirmed \/ status b = pending)
      /\ startDate b <= e /\ endDate b >= s.
Proof.
  unfold overlapQuery.
  rewrite !andb_true_iff, String.eqb_eq, activeStatus_true, Z.leb_le, Z.geb_le.
  intuition lia.
Qed.

Lemma findOne_Some (q : Booking -> bool) (l : list Booking) :
  is_Some (findOne q l) <-> exists b, In b l /\ q b = true.
Proof.
  unfold findOne. split.
  - intros [b Hb]. exists b. now apply find_some in Hb.
  - intros [b [Hin Hq]]. destruct (find q l) eqn:E; [eauto|].
    now rewrite (find_none _ _ E b Hin) in Hq.
Qed.

Lemma findOne_None (q : Booking -> bool) (l : list Booking) :
  findOne q l = None <-> ~ exists b, In b l /\ q b = true.
Proof.
  rewrite <- findOne_Some. destruct (findOne q l); split; intros H.
  - discriminate.
  - exfalso. apply H. eauto.
  - intros [x Hx]. discriminate.
  - reflexivity.
Qed.

(** Documents that the query rejects can be dropped from, or added to, the
    collection without changing what [findOne] answers. *)
Lemma findOne_filter (q keep : Booking -> bool) (l : list Booking) :
  (forall b, q b = true -> keep b = true) ->
  findOne q (List.filter keep l) = findOne q l.
Proof.
  intros Hk. unfold findOne. induction l as [|x l IH]; [reflexivity|].
  cbn. destruct (keep x) eqn:K; cbn.
  - now rewrite IH.
  - destruct (q x) eqn:Q; [|exact IH].
    apply Hk in Q. congruence.
Qed.

Lemma overlapping_conflicting (id : string) (s e : Z) (l : list Booking) :
  is_Some (findOne (overlapQuery id s e) l) <-> conflicting id s e l.
Proof.
  rewrite findOne_Some. unfold conflicting.
  split; intros [b [Hin Hq]]; exists b; split; trivial;
    now apply overlapQuery_true.
Qed.

(** Touching boundaries conflict: a confirmed booking that ends at the very
    instant the request starts makes the car unavailable. *)
Example availability_touching :
  checkAvailability "c1" (mkDate 2024 1 3) (mkDate 2024 1 5) Sample.db1
  = Ok 200 (mkAvailability false "Car is not available for the selected dates")
  /\ checkAvailability "c1" (mkDate 2024 1 3) (mkDate 2024 1 5)
       (mkDb (cars Sample.db1) [set_status cancelled Sample.booking1])
     = Ok 200 (mkAvailability true "Car is available for the selected dates").
Proof. split; vm_compute; reflexivity. Qed.

Section RouteProperties.

Variable tz : Z.
Variable RAZORPAY_KEY_ID : string.
Variable RAZORPAY_KEY_SECRET : string.
Variable hmacSha256Hex : string -> string -> string.
Variable razorpayOrdersCreate : OrderOptions -> option ProviderOrder.

Local Abbreviation verify := (verifyPayment tz RAZORPAY_KEY_SECRET hmacSha256Hex).
Local Abbreviation createOrder :=
  (createRazorpayOrder tz RAZORPAY_KEY_ID razorpayOrdersCreate).
Local Abbreviation cancel := (cancelBooking).
Local Abbreviation serving :=
  (serve tz RAZORPAY_KEY_ID RAZORPAY_KEY_SECRET hmacSha256Hex
     razorpayOrdersCreate).

(** *** C3: the payment signature *)

(** C3.  [/verify-payment] lets a request past the signature check exactly
    when the supplied signature is, character for character, the hex
    HMAC-SHA256 under the provider secret of [orderId + "|" + paymentId];
    with any other signature it answers the invalid-signature error and
    leaves the store as it was.  For order [order_1] and payment [pay_1]
    the signed text is [order_1|pay_1]. *)
Theorem C3_signature (e : Entropy) (u : User) (r : VerifyRequest) (db : Db) :
  let expected :=
    hmacSha256Hex RAZORPAY_KEY_SECRET
      (razorpay_order_id r +:+ "|" +:+ razorpay_payment_id r) in
  (fst (verify e u r db) = invalidSignature
   <-> razorpay_signature r <> expected)
  /\ (razorpay_signature r <> expected
      -> verify e u r db = (invalidSignature, db))
  /\ (forall sig f,
        expectedSignature RAZORPAY_KEY_SECRET hmacSha256Hex
          (mkVerify "order_1" "pay_1" sig f)
        = hmacSha256Hex RAZORPAY_KEY_SECRET "order_1|pay_1").
Proof.
  intros expected.
  assert (Hno : razorpay_signature r <> expected
                -> verify e u r db = (invalidSignature, db)).
  { intros Hne. unfold verifyPayment, expectedSignature.
    fold expected.
    destruct (String.eqb expected (razorpay_signature r)) eqn:E; [|reflexivity].
    apply String.eqb_eq in E. congruence. }
  split; [|split; [exact Hno | reflexivity]].
  split.
  - intros Hres Heq. revert Hres.
    unfold verifyPayment, expectedSignature. fold expected.
    rewrite Heq, String.eqb_refl. cbn [negb].
    destruct (cars db !! carId (bookingDetails r)) as [c|]; [|discriminate].
    destruct (negb (isAvailable c)); [discriminate|].
    destruct (findOne _ _); [discriminate|].
    destruct (save _ _ _ _) as [?|[? ?]]; discriminate.
  - intros Hne. now rewrite Hno.
Qed.

(** *** C6: order creation *)

(** C6.  For a car of the catalogue, [/create-razorpay-order] answers an
    error and asks the provider for nothing when the computed total is zero
    or negative; when it is positive it asks the provider for one order of
    exactly [totalAmount * 100] minor units.  Either way the store, and so
    the booking collection, is left as it was. *)
Theorem C6_order_creation (now : Z) (u : User) (f : BookingForm) (db : Db)
    (c : Car) :
  cars db !! carId f = Some c ->
  let total :=
    det_totalAmount
      (calculateBookingDetails tz c (form_startDate f) (form_endDate f)
         (form_startTime f) (form_endTime f) (form_bookingType f)) in
  let res := createOrder now u f db in
  snd (fst res) = db
  /\ (total <= 0
      -> fst (fst res) = Err 400 "Calculated total amount is zero or negative."
         /\ snd res = [])
  /\ (0 < total
      -> snd res
         = [mkOptions (total * 100) "INR" ("receipt_order_" +:+ pretty now) 1]).
Proof.
  intros Hc total res. subst res. unfold createRazorpayOrder.
  rewrite Hc. fold total.
  destruct (total <=? 0) eqn:E.
  - apply Z.leb_le in E. repeat split; trivial; lia.
  - apply Z.leb_gt in E.
    destruct (razorpayOrdersCreate _); cbn; repeat split; trivial; lia.
Qed.

End RouteProperties.

(** ** The [pre('save')] hooks and the write *)

Lemma newBookingId_truthy (e : Entropy) : falsy (Some (newBookingId e)) = false.
Proof. reflexivity. Qed.

Lemma generateBookingId_truthy (e : Entropy) (b : Booking) :
  falsy (bookingId (generateBookingId e b)) = false.
Proof.
  unfold generateBookingId. destruct (falsy (bookingId b)) eqn:F; [|exact F].
  apply newBookingId_truthy.
Qed.

Lemma generateBookingId_keeps (e : Entropy) (b : Booking) :
  falsy (bookingId b) = false -> generateBookingId e b = b.
Proof. unfold generateBookingId. now intros ->. Qed.

Lemma generateBookingId_fields (e : Entropy) (b : Booking) :
  _id (generateBookingId e b) = _id b
  /\ startDate (generateBookingId e b) = startDate b
  /\ endDate (generateBookingId e b) = endDate b
  /\ status (generateBookingId e b) = status b
  /\ paymentStatus (generateBookingId e b) = paymentStatus b.
Proof. unfold generateBookingId. destruct (falsy _); repeat split. Qed.

Lemma preSave_inr (e : Entropy) (b b' : Booking) :
  preSave e b = inr b' <->
  b' = generateBookingId e b /\ startDate b < endDate b.
Proof.
  unfold preSave, validateDateRange.
  destruct (generateBookingId_fields e b) as (_ & Hs & He & _).
  rewrite Hs, He. destruct (Z.geb_spec (startDate b) (endDate b)).
  - split; [discriminate | lia].
  - split.
    + intros [= <-]. split; [reflexivity | lia].
    + now intros [-> _].
Qed.

Lemma preSave_rejects (e : Entropy) (b : Booking) :
  endDate b <= startDate b ->
  preSave e b = inl "End date must be after start date".
Proof.
  intros H. unfold preSave, validateDateRange.
  destruct (generateBookingId_fields e b) as (_ & Hs & He & _).
  rewrite Hs, He. destruct (Z.geb_spec (startDate b) (endDate b)); [reflexivity | lia].
Qed.

Lemma save_inr (e : Entropy) (isNew : bool) (b b' : Booking) (db db' : Db) :
  save e isNew b db = inr (b', db') ->
  b' = generateBookingId e b /\ startDate b < endDate b
  /\ cars db' = cars db
  /\ (if isNew then insertOne b' (bookings db) else updateOne b' (bookings db))
     = Some (bookings db').
Proof.
  unfold save. destruct (invalidPaths b); [|discriminate].
  destruct (preSave e b) as [|b0] eqn:P; [discriminate|].
  apply preSave_inr in P as [-> Hlt].
  destruct (if isNew then _ else _) as [l|] eqn:W; [|discriminate].
  intros [= <- <-]. auto.
Qed.

Lemma schemaValid_nil (b : Booking) :
  schemaValid b = true <-> invalidPaths b = [].
Proof.
  unfold schemaValid. destruct (invalidPaths b); split; congruence.
Qed.

Lemma invalidPaths_bookingId (b : Booking) :
  falsy (bookingId b) = true -> In "bookingId" (invalidPaths b).
Proof.
  intros H. unfold invalidPaths. rewrite H.
  rewrite !in_app_iff. right; right; right; right. now left.
Qed.

Lemma schemaValid_truthy (b : Booking) :
  schemaValid b = true -> falsy (bookingId b) = false.
Proof.
  intros H. apply schemaValid_nil in H.
  destruct (falsy (bookingId b)) eqn:F; [|reflexivity].
  apply invalidPaths_bookingId in F. rewrite H in F. destruct F.
Qed.

Lemma invalidPaths_set_status (s : Status) (b : Booking) :
  invalidPaths (set_status s b) = invalidPaths b.
Proof. reflexivity. Qed.

(** A document without its identifier does not pass the validation, and no
    hook runs. *)
Lemma save_unidentified (e : Entropy) (isNew : bool) (b : Booking) (db : Db) :
  falsy (bookingId b) = true ->
  exists paths,
    save e isNew b db = inl (ValidationError paths) /\ In "bookingId" paths.
Proof.
  intros H. apply invalidPaths_bookingId in H. unfold save.
  destruct (invalidPaths b) as [|p ps]; [destruct H | eauto].
Qed.

(** A save that succeeds has written the document as it was handed over. *)
Lemma save_inr_valid (e : Entropy) (isNew : bool) (b b' : Booking) (db db' : Db) :
  save e isNew b db = inr (b', db') -> schemaValid b = true /\ b' = b.
Proof.
  intros W. assert (V : schemaValid b = true).
  { apply schemaValid_nil. revert W. unfold save.
    destruct (invalidPaths b); [reflexivity | discriminate]. }
  split; [exact V|]. apply save_inr in W as (-> & _).
  apply generateBookingId_keeps. now apply schemaValid_truthy.
Qed.

Lemma insertOne_Some (b : Booking) (l l' : list Booking) :
  insertOne b l = Some l' <->
  l' = l ++ [b]
  /\ existsb (sameId (_id b)) l = false
  /\ existsb (sameBookingId (bookingId b)) l = false.
Proof.
  unfold insertOne.
  destruct (existsb (sameId _) l), (existsb (sameBookingId _) l); cbn;
    split; try discriminate; try (intros (_ & ? & ?); discriminate).
  - intros [= <-]. auto.
  - now intros (-> & _).
Qed.

(** A branch of a handler that answers an error and hands the store back. *)
Ltac failed_branch :=
  cbn [fst snd is_ok];
  split; [intros _; split; reflexivity
         | split; [intros _; reflexivity | discriminate]].

Section VerifyPaymentProperties.

Variable tz : Z.
Variable RAZORPAY_KEY_SECRET : string.
Variable hmacSha256Hex : string -> string -> string.

Local Abbreviation verify := (verifyPayment tz RAZORPAY_KEY_SECRET hmacSha256Hex).

(** *** C2: no partial commit *)

(** C2.  When the car is missing, or its flag is false, or the re-check
    finds a confirmed or pending booking of the car that overlaps the
    request, [/verify-payment] fails and the store is as before: no booking
    is created and no counter is incremented.  The same holds for every
    failure.  When it succeeds, every check has passed, and then exactly one
    booking, confirmed and paid, has been added and the car's
    [totalBookings] has grown by one. *)
Theorem C2_no_partial_commit (e : Entropy) (u : User) (r : VerifyRequest)
    (db : Db) :
  let f := bookingDetails r in
  let res := verify e u r db in
  let conflict :=
    conflicting (carId f) (startDateTimeForCheck tz f)
      (endDateTimeForCheck tz f) (bookings db) in
  ((cars db !! carId f = None
    \/ (exists c, cars db !! carId f = Some c /\ isAvailable c = false)
    \/ conflict)
   -> is_ok (fst res) = false /\ snd res = db)
  /\ (is_ok (fst res) = false -> snd res = db)
  /\ (is_ok (fst res) = true
      -> razorpay_signature r
         = expectedSignature RAZORPAY_KEY_SECRET hmacSha256Hex r
         /\ ~ conflict
         /\ exists c b,
             cars db !! carId f = Some c /\ isAvailable c = true
             /\ fst res = Ok 201 b
             /\ bookings (snd res) = bookings db ++ [b]
             /\ cars (snd res) = <[carId f := inc_totalBookings c]> (cars db)
             /\ status b = confirmed /\ paymentStatus b = paid
             /\ startDate b < endDate b).
Proof.
  intros f res conflict. subst res. unfold verifyPayment. fold f.
  destruct (String.eqb _ _) eqn:S; cbn [negb]; [|failed_branch].
  apply String.eqb_eq in S.
  destruct (cars db !! carId f) as [c|] eqn:C; [|failed_branch].
  destruct (isAvailable c) eqn:A; cbn [negb]; [|failed_branch].
  destruct (findOne _ _) as [x|] eqn:Q; [failed_branch|].
  assert (Hnc : ~ conflict).
  { intros Hc. apply overlapping_conflicting in Hc.
    rewrite Q in Hc. now destruct Hc. }
  destruct (save _ _ _ _) as [err|[b db']] eqn:W; [failed_branch|].
  cbn [fst snd is_ok cars bookings].
  split; [|split; [discriminate|]].
  - intros [H|[[c' [H1 H2]]|H]]; [discriminate | congruence | contradiction].
  - intros _. split; [now symmetry|]. split; [exact Hnc|].
    apply save_inr in W as (Hb & Hlt & Hcars & Hw).
    apply insertOne_Some in Hw as (Hl & _ & _).
    destruct (generateBookingId_fields e
                (newBooking e u r
                   (calculateBookingDetails tz c (form_startDate f)
                      (form_endDate f) (form_startTime f) (form_endTime f)
                      (form_bookingType f)))) as (_ & Hs & He & Hst & Hp).
    exists c, b. rewrite Hcars, Hl. subst b. rewrite Hs, He, Hst, Hp.
    repeat split; trivial.
    apply map_eq. intros k.
    destruct (decide (carId f = k)) as [<-|Hne].
    + now rewrite lookup_alter_eq, lookup_insert_eq, C.
    + now rewrite lookup_alter_ne, lookup_insert_ne.
Qed.

(** *** C1: the availability check *)

(** C1.  For a car of the catalogue and a requested interval, the check
    answers unavailable exactly when the car's [isAvailable] flag is false
    or some booking of this car with status confirmed or pending satisfies
    [existing.start <= end] and [existing.end >= start], boundaries
    included; it answers the same on the collection with the cancelled and
    completed bookings taken out.  The re-check of [/verify-payment]
    refuses a correctly signed request for a car of the catalogue on the
    same condition. *)
Theorem C1_availability (id : string) (sd ed : DateStr) (db : Db)
    (e : Entropy) (u : User) (r : VerifyRequest) :
  match cars db !! id with
  | None => checkAvailability id sd ed db = Err 404 "Car not found"
  | Some c =>
      (exists a msg,
          checkAvailability id sd ed db = Ok 200 (mkAvailability a msg)
          /\ (a = false
              <-> isAvailable c = false
                  \/ conflicting id (newDate sd) (newDate ed) (bookings db)))
      /\ checkAvailability id sd ed
           (mkDb (cars db)
              (List.filter (fun b => activeStatus (status b)) (bookings db)))
         = checkAvailability id sd ed db
  end
  /\ (let f := bookingDetails r in
      forall c,
        razorpay_signature r
        = expectedSignature RAZORPAY_KEY_SECRET hmacSha256Hex r ->
        cars db !! carId f = Some c ->
        (fst (verify e u r db) = Err 400 "Car is not available"
         \/ fst (verify e u r db)
            = Err 400 "Car is no longer available for the selected dates/times.")
        <-> isAvailable c = false
            \/ conflicting (carId f) (startDateTimeForCheck tz f)
                 (endDateTimeForCheck tz f) (bookings db)).
Proof.
  split.
  - unfold checkAvailability. cbn [cars bookings].
    destruct (cars db !! id) as [c|]; [|reflexivity].
    split.
    + eexists _, _. split; [reflexivity|].
      rewrite andb_false_iff, negb_false_iff, bool_decide_eq_true.
      rewrite overlapping_conflicting. tauto.
    + rewrite findOne_filter; [reflexivity|].
      intros b Hb. apply overlapQuery_true in Hb.
      apply activeStatus_true. tauto.
  - intros f c Hsig Hc. unfold verifyPayment. fold f.
    rewrite <- Hsig, String.eqb_refl, Hc. cbn [negb].
    rewrite <- overlapping_conflicting.
    destruct (isAvailable c); cbn [negb fst].
    2:{ split; auto. }
    destruct (findOne _ _) as [x|]; cbn [fst].
    { split; eauto. }
    split.
    + destruct (save _ _ _ _) as [err|[b db']]; cbn [fst];
        intros [H|H]; discriminate H.
    + intros [H|[x Hx]]; discriminate.
Qed.

End VerifyPaymentProperties.

(** ** Documents found, replaced and updated in place *)

Lemma findById_Some (i : string) (l : list Booking) (b : Booking) :
  findById i l = Some b -> In b l /\ _id b = i.
Proof.
  unfold findById, findOne. intros H. apply find_some in H as [Hin Hid].
  split; [exact Hin | now apply String.eqb_eq].
Qed.

Lemma existsb_sameId_false (i : string) (l : list Booking) :
  existsb (sameId i) l = false <-> ~ In i (List.map _id l).
Proof.
  rewrite <- not_true_iff_false, existsb_exists, in_map_iff.
  unfold sameId. split; intros H [x Hx]; apply H; exists x.
  - destruct Hx as [<- Hin]. split; [exact Hin | apply String.eqb_refl].
  - destruct Hx as [Hin Hx]. apply String.eqb_eq in Hx. auto.
Qed.

Lemma existsb_sameBookingId_false (o : option string) (l : list Booking) :
  existsb (sameBookingId o) l = false <-> ~ In o (List.map bookingId l).
Proof.
  rewrite <- not_true_iff_false, existsb_exists, in_map_iff.
  unfold sameBookingId. split; intros H [x Hx]; apply H; exists x.
  - destruct Hx as [<- Hin]. split; [exact Hin | now apply bool_decide_eq_true].
  - destruct Hx as [Hin Hx]. apply bool_decide_eq_true in Hx. auto.
Qed.

Lemma NoDup_snoc {X : Type} (l : list X) (x : X) :
  List.NoDup l -> ~ In x l -> List.NoDup (l ++ [x]).
Proof.
  intros Hl Hx. apply List.NoDup_app; [exact Hl | |].
  - constructor; [intros [] | constructor].
  - intros a Ha [<-|[]]. contradiction.
Qed.

Lemma NoDup_map_In_inj {X : Type} (f : Booking -> X) (l : list Booking)
    (x y : Booking) :
  List.NoDup (List.map f l) -> In x l -> In y l -> f x = f y -> x = y.
Proof.
  induction l as [|a l IH]; cbn; [intros _ []|].
  rewrite NoDup_cons_iff. intros [Ha Hl] [<-|Hx] [<-|Hy] Hf; auto.
  - exfalso. apply Ha. rewrite Hf. now apply in_map.
  - exfalso. apply Ha. rewrite <- Hf. now apply in_map.
Qed.

Lemma replaceById_found (i : string) (b b' : Booking) (l : list Booking) :
  findById i l = Some b -> _id b' = i ->
  exists l',
    replaceById b' l = Some l'
    /\ findById i l' = Some b'
    /\ (forall j, j <> i -> findById j l' = findById j l)
    /\ (forall (X : Type) (f : Booking -> X),
          f b' = f b -> List.map f l' = List.map f l)
    /\ (forall P : Booking -> Prop, Forall P l -> P b' -> Forall P l').
Proof.
  intros Hfind Hid. revert Hfind. unfold findById, findOne.
  induction l as [|x r IH]; cbn [find replaceById]; [discriminate|].
  rewrite Hid. destruct (sameId i x) eqn:E.
  - intros [= ->]. exists (b' :: r).
    assert (Hb' : sameId i b' = true).
    { unfold sameId. rewrite Hid. apply String.eqb_refl. }
    split; [reflexivity|]. split; [cbn; now rewrite Hb'|].
    split; [|split].
    + intros j Hj. cbn.
      assert (Hjb : sameId j b = false /\ sameId j b' = false).
      { unfold sameId in *. apply String.eqb_eq in E. rewrite E, Hid.
        split; apply String.eqb_neq; congruence. }
      destruct Hjb as [-> ->]. reflexivity.
    + intros X f Hf. cbn. now rewrite Hf.
    + intros P HP Hb. inversion HP; subst. now constructor.
  - intros Hfind. destruct (IH Hfind) as (r' & Hr & Hf & Ho & Hm & HP).
    exists (x :: r'). rewrite Hr. split; [reflexivity|].
    split; [cbn; now rewrite E|]. split; [|split].
    + intros j Hj. cbn. destruct (sameId j x); [reflexivity | now apply Ho].
    + intros X f Hfb. cbn. now rewrite (Hm X f Hfb).
    + intros P HPl Hb. inversion HPl; subst. constructor; auto.
Qed.

Lemma updateOne_found (i : string) (b b' : Booking) (l : list Booking) :
  List.NoDup (List.map bookingId l) ->
  findById i l = Some b -> _id b' = i -> bookingId b' = bookingId b ->
  updateOne b' l = replaceById b' l.
Proof.
  intros Hnd Hfind Hid Hbid. unfold updateOne.
  destruct (existsb _ _) eqn:E; [|reflexivity]. exfalso.
  apply existsb_exists in E as (x & Hx & Hsame).
  apply filter_In in Hx as [Hin Hne].
  apply bool_decide_eq_true in Hsame.
  apply findById_Some in Hfind as [Hb Hib].
  assert (x = b) as ->.
  { apply (NoDup_map_In_inj bookingId l); congruence. }
  unfold sameId in Hne. rewrite Hib, Hid, String.eqb_refl in Hne. discriminate.
Qed.

Lemma findByIdAndUpdate_spec (i : string) (s : Status) (l : list Booking) :
  fst (findByIdAndUpdate i s l) = option_map (set_status s) (findById i l)
  /\ (forall (X : Type) (f : Booking -> X),
        (forall x, f (set_status s x) = f x) ->
        List.map f (snd (findByIdAndUpdate i s l)) = List.map f l)
  /\ (forall P : Booking -> Prop,
        (forall x, P x -> P (set_status s x)) ->
        Forall P l -> Forall P (snd (findByIdAndUpdate i s l))).
Proof.
  unfold findById, findOne.
  induction l as [|x r (IH1 & IH2 & IH3)]; cbn [findByIdAndUpdate find].
  - repeat split; auto.
  - destruct (sameId i x) eqn:E.
    + cbn. split; [reflexivity|]. split.
      * intros X f Hf. now rewrite Hf.
      * intros P HP HPl. inversion HPl; subst. constructor; auto.
    + destruct (findByIdAndUpdate i s r) as [o r'] eqn:R. cbn in *.
      split; [exact IH1|]. split.
      * intros X f Hf. now rewrite (IH2 X f Hf).
      * intros P HP HPl. inversion HPl; subst. constructor; auto.
Qed.

Lemma findByIdAndUpdate_In (i : string) (s : Status) (l : list Booking)
    (b : Booking) :
  findById i l = Some b -> In (set_status s b) (snd (findByIdAndUpdate i s l)).
Proof.
  unfold findById, findOne.
  induction l as [|x r IH]; cbn [findByIdAndUpdate find]; [discriminate|].
  destruct (sameId i x).
  - intros H. injection H as ->. now left.
  - intros F. specialize (IH F).
    destruct (findByIdAndUpdate i s r) as [o r']. now right.
Qed.

Lemma replaceById_Some (b' : Booking) (l l' : list Booking) :
  replaceById b' l = Some l' ->
  In b' l' /\ exists b, findById (_id b') l = Some b.
Proof.
  revert l'. unfold findById, findOne.
  induction l as [|x r IH]; cbn [replaceById find]; [discriminate|].
  intros l'. destruct (sameId (_id b') x).
  - intros [= <-]. split; [now left | eauto].
  - destruct (replaceById b' r) as [r'|]; [|discriminate].
    intros [= <-]. destruct (IH r' eq_refl) as [Hin Hb].
    split; [now right | exact Hb].
Qed.

Lemma updateOne_Some (b' : Booking) (l l' : list Booking) :
  updateOne b' l = Some l' -> replaceById b' l = Some l'.
Proof. unfold updateOne. destruct (existsb _ _); [discriminate | auto]. Qed.

(** ** One document among the others *)

(** The document found by its identifier splits the collection; the update
    query and the replacement act on that document alone. *)
Lemma findById_split (i : string) (l : list Booking) (b : Booking) :
  findById i l = Some b ->
  exists l1 l2,
    l = l1 ++ b :: l2
    /\ Forall (fun x => sameId i x = false) l1
    /\ (forall s, findByIdAndUpdate i s l
                  = (Some (set_status s b), l1 ++ set_status s b :: l2))
    /\ (forall b', _id b' = i -> replaceById b' l = Some (l1 ++ b' :: l2)).
Proof.
  unfold findById, findOne.
  induction l as [|x r IH]; cbn [find]; [discriminate|].
  destruct (sameId i x) eqn:E.
  - intros [= ->]. exists [], r. cbn [app findByIdAndUpdate replaceById].
    rewrite E. repeat split; trivial. intros b' <-. now rewrite E.
  - intros F. destruct (IH F) as (l1 & l2 & -> & Hl1 & Hu & Hr).
    exists (x :: l1), l2. split; [reflexivity|].
    split; [now constructor|]. split.
    + intros s. cbn [findByIdAndUpdate app]. now rewrite E, Hu.
    + intros b' Hb'. subst i. cbn. now rewrite E, (Hr b' eq_refl).
Qed.

Lemma split_unique (i : string) (l1 l2 k1 k2 : list Booking) (x y : Booking) :
  Forall (fun z => sameId i z = false) l1 ->
  Forall (fun z => sameId i z = false) k1 ->
  sameId i x = true -> sameId i y = true ->
  l1 ++ x :: l2 = k1 ++ y :: k2 ->
  l1 = k1 /\ x = y /\ l2 = k2.
Proof.
  intros Hl1. revert k1.
  induction Hl1 as [|a l1 Ha _ IH]; intros k1 Hk1 Hx Hy E.
  - destruct k1 as [|c k1]; cbn in E.
    + injection E as -> ->. auto.
    + injection E as -> _. inversion Hk1 as [|? ? Hc _]. congruence.
  - destruct k1 as [|c k1]; cbn in E.
    + injection E as -> _. congruence.
    + injection E as -> E. inversion Hk1 as [|? ? _ Hk1'].
      destruct (IH k1 Hk1' Hx Hy E) as (-> & -> & ->). auto.
Qed.

Lemma findById_app_miss (i : string) (l1 l2 : list Booking) :
  Forall (fun x => sameId i x = false) l1 ->
  findById i (l1 ++ l2) = findById i l2.
Proof.
  unfold findById, findOne. induction 1 as [|x l1 Hx _ IH]; [reflexivity|].
  cbn. now rewrite Hx.
Qed.

Lemma findByIdAndUpdate_miss (i : string) (s : Status) (l : list Booking) :
  findById i l = None -> findByIdAndUpdate i s l = (None, l).
Proof.
  unfold findById, findOne.
  induction l as [|x r IH]; cbn [find findByIdAndUpdate]; [reflexivity|].
  destruct (sameId i x); [discriminate|]. intros F. now rewrite (IH F).
Qed.

(** ** What each handler can do to the store *)

Lemma cancelBooking_cases (now : Z) (e : Entropy) (u : User) (id : string)
    (db : Db) :
  (is_ok (fst (cancelBooking now e u id db)) = false
   /\ snd (cancelBooking now e u id db) = db)
  \/ exists b l',
       findById id (bookings db) = Some b
       /\ user b = user_id u /\ now < startDate b /\ status b <> cancelled
       /\ startDate b < endDate b
       /\ updateOne (generateBookingId e (set_status cancelled b)) (bookings db)
          = Some l'
       /\ cancelBooking now e u id db
          = (Ok 200 (generateBookingId e (set_status cancelled b)),
             mkDb (cars db) l').
Proof.
  unfold cancelBooking.
  destruct (findById id (bookings db)) as [b|] eqn:F; [|now left].
  destruct (String.eqb (user b) (user_id u)) eqn:U; cbn [negb]; [|now left].
  destruct (Z.leb_spec (startDate b) now); [now left|].
  destruct (bool_decide (status b = cancelled)) eqn:S; [now left|].
  destruct (save _ _ _ _) as [err|[b' db']] eqn:W; [now left|].
  right. apply save_inr in W as (-> & Hlt & Hc & Hw).
  exists b, (bookings db'). apply String.eqb_eq in U.
  apply bool_decide_eq_false in S.
  repeat split; trivial. destruct db'; cbn in *. now subst.
Qed.

Section HandlerCases.

Variable tz : Z.
Variable RAZORPAY_KEY_ID : string.
Variable RAZORPAY_KEY_SECRET : string.
Variable hmacSha256Hex : string -> string -> string.
Variable razorpayOrdersCreate : OrderOptions -> option ProviderOrder.

Lemma createRazorpayOrder_db (now : Z) (u : User) (f : BookingForm) (db : Db) :
  snd (fst (createRazorpayOrder tz RAZORPAY_KEY_ID razorpayOrdersCreate
              now u f db)) = db.
Proof.
  unfold createRazorpayOrder.
  destruct (cars db !! carId f); [|reflexivity].
  destruct (_ <=? 0); [reflexivity|].
  destruct (razorpayOrdersCreate _); reflexivity.
Qed.

Lemma verifyPayment_cases (e : Entropy) (u : User) (r : VerifyRequest)
    (db : Db) :
  let res := verifyPayment tz RAZORPAY_KEY_SECRET hmacSha256Hex e u r db in
  (is_ok (fst res) = false /\ snd res = db)
  \/ exists c b,
       cars db !! carId (bookingDetails r) = Some c
       /\ b = generateBookingId e
                (newBooking e u r
                   (calculateBookingDetails tz c
                      (form_startDate (bookingDetails r))
                      (form_endDate (bookingDetails r))
                      (form_startTime (bookingDetails r))
                      (form_endTime (bookingDetails r))
                      (form_bookingType (bookingDetails r))))
       /\ startDate b < endDate b
       /\ insertOne b (bookings db) = Some (bookings db ++ [b])
       /\ res = (Ok 201 b,
                 mkDb (alter inc_totalBookings (carId (bookingDetails r))
                         (cars db))
                      (bookings db ++ [b])).
Proof.
  cbn zeta. unfold verifyPayment.
  destruct (negb _); [now left|].
  destruct (cars db !! carId (bookingDetails r)) as [c|] eqn:C; [|now left].
  destruct (negb (isAvailable c)); [now left|].
  destruct (findOne _ _); [now left|].
  destruct (save _ _ _ _) as [err|[b db']] eqn:W; [now left|].
  right. apply save_inr in W as (Hb & Hlt & Hc & Hw).
  pose proof Hw as Hw'. apply insertOne_Some in Hw' as (Hl & _).
  exists c, b. rewrite Hc, Hl. rewrite Hl in Hw.
  destruct (generateBookingId_fields e
              (newBooking e u r
                 (calculateBookingDetails tz c
                    (form_startDate (bookingDetails r))
                    (form_endDate (bookingDetails r))
                    (form_startTime (bookingDetails r))
                    (form_endTime (bookingDetails r))
                    (form_bookingType (bookingDetails r)))))
    as (_ & Hs & He & _).
  repeat split; trivial. rewrite Hb, Hs, He. exact Hlt.
Qed.

(** The document that [/verify-payment] builds has no [bookingId]: its save
    stops at the validation and the handler commits nothing. *)
Lemma verifyPayment_fails (e : Entropy) (u : User) (r : VerifyRequest) (db : Db) :
  is_ok (fst (verifyPayment tz RAZORPAY_KEY_SECRET hmacSha256Hex e u r db)) = false
  /\ snd (verifyPayment tz RAZORPAY_KEY_SECRET hmacSha256Hex e u r db) = db.
Proof.
  unfold verifyPayment.
  destruct (negb _); [now split|].
  destruct (cars db !! carId (bookingDetails r)) as [c|]; [|now split].
  destruct (negb (isAvailable c)); [now split|].
  destruct (findOne _ _); [now split|].
  destruct (save_unidentified e true
              (newBooking e u r
                 (calculateBookingDetails tz c
                    (form_startDate (bookingDetails r))
                    (form_endDate (bookingDetails r))
                    (form_startTime (bookingDetails r))
                    (form_endTime (bookingDetails r))
                    (form_bookingType (bookingDetails r)))) db eq_refl)
    as (paths & -> & _).
  now split.
Qed.

End HandlerCases.

Lemma cancelBooking_ok_valid (now : Z) (e : Entropy) (u : User) (id : string)
    (db : Db) (b : Booking) :
  findById id (bookings db) = Some b ->
  is_ok (fst (cancelBooking now e u id db)) = true ->
  schemaValid b = true.
Proof.
  intros F. unfold cancelBooking. rewrite F.
  destruct (negb _); [discriminate|].
  destruct (_ <=? _); [discriminate|].
  destruct (bool_decide _); [discriminate|].
  destruct (save _ _ _ _) as [err|[b' db']] eqn:W; [discriminate|].
  intros _. now apply save_inr_valid in W as [V _].
Qed.

(** ** C7: cancellation by the owner *)

(** C7.  For a booking stored in a well-formed collection, the owner's
    cancellation succeeds, and sets the status to cancelled, exactly when the
    booking belongs to the requester, the current time is strictly before its
    [startDate] and its status is not cancelled yet; otherwise it fails and
    the store, so the status, is unchanged.  After a success every further
    attempt on the same booking fails, and a booking that has started cannot
    be cancelled. *)
Theorem C7_cancellation (now : Z) (e : Entropy) (u : User) (id : string)
    (db : Db) (b : Booking) :
  datesOrdered db -> idsUnique db -> findById id (bookings db) = Some b ->
  let res := cancelBooking now e u id db in
  let allowed :=
    user b = user_id u /\ now < startDate b /\ status b <> cancelled in
  (allowed ->
     fst res = Ok 200 (set_status cancelled b)
     /\ findById id (bookings (snd res)) = Some (set_status cancelled b)
     /\ (forall j, j <> id ->
           findById j (bookings (snd res)) = findById j (bookings db))
     /\ cars (snd res) = cars db
     /\ forall now' e' u',
          is_ok (fst (cancelBooking now' e' u' id (snd res))) = false
          /\ snd (cancelBooking now' e' u' id (snd res)) = snd res)
  /\ (~ allowed -> is_ok (fst res) = false /\ snd res = db)
  /\ (startDate b <= now -> is_ok (fst res) = false /\ snd res = db).
Proof.
  intros Hdates (Hids & Hbids & Htruthy) Hfind res allowed.
  assert (Hno : ~ allowed -> is_ok (fst res) = false /\ snd res = db).
  { intros Hna. subst res.
    destruct (cancelBooking_cases now e u id db)
      as [H|(b0 & l' & F & Hu & Hn & Hs & _)]; [exact H|].
    exfalso. apply Hna. unfold allowed. rewrite Hfind in F.
    injection F as <-. auto. }
  split; [|split; [exact Hno | intros Hpast; apply Hno; unfold allowed; lia]].
  intros (Hu & Hn & Hs).
  pose proof (findById_Some _ _ _ Hfind) as [Hin Hid].
  assert (Hkeep : generateBookingId e (set_status cancelled b)
                  = set_status cancelled b).
  { apply generateBookingId_keeps. change (falsy (bookingId b) = false).
    rewrite List.Forall_forall in Htruthy. now apply schemaValid_truthy, Htruthy. }
  assert (Hvalid : invalidPaths (set_status cancelled b) = []).
  { rewrite invalidPaths_set_status. apply schemaValid_nil.
    rewrite List.Forall_forall in Htruthy. now apply Htruthy. }
  assert (Hlt : startDate b < endDate b).
  { unfold datesOrdered in Hdates. rewrite List.Forall_forall in Hdates.
    now apply Hdates. }
  destruct (replaceById_found id b (set_status cancelled b) (bookings db)
              Hfind Hid) as (l' & Hrep & Hf' & Hother & _).
  assert (Hres : res = (Ok 200 (set_status cancelled b), mkDb (cars db) l')).
  { subst res. unfold cancelBooking. rewrite Hfind, Hu, String.eqb_refl.
    cbn [negb]. destruct (Z.leb_spec (startDate b) now); [lia|].
    rewrite bool_decide_eq_false_2 by exact Hs.
    assert (Hpre : preSave e (set_status cancelled b)
                   = inr (set_status cancelled b)).
    { apply preSave_inr. split; [now symmetry | exact Hlt]. }
    unfold save. rewrite Hvalid, Hpre.
    rewrite (updateOne_found id b) by (trivial; reflexivity).
    now rewrite Hrep. }
  rewrite Hres. cbn [fst snd cars bookings].
  repeat split; trivial.
  - unfold cancelBooking. cbn [bookings]. rewrite Hf'. cbn [user startDate status].
    destruct (negb _); [reflexivity|].
    destruct (_ <=? _); [reflexivity|]. now rewrite bool_decide_eq_true_2.
  - unfold cancelBooking. cbn [bookings]. rewrite Hf'. cbn [user startDate status].
    destruct (negb _); [reflexivity|].
    destruct (_ <=? _); [reflexivity|]. now rewrite bool_decide_eq_true_2.
Qed.

(** ** The invariants are kept *)

Section Invariants.

Variable tz : Z.
Variable RAZORPAY_KEY_ID : string.
Variable RAZORPAY_KEY_SECRET : string.
Variable hmacSha256Hex : string -> string -> string.
Variable razorpayOrdersCreate : OrderOptions -> option ProviderOrder.

Local Abbreviation serving :=
  (serve tz RAZORPAY_KEY_ID RAZORPAY_KEY_SECRET hmacSha256Hex
     razorpayOrdersCreate).

(** A request leaves the booking collection alone, or replaces one document
    by its saved version, or runs one status update query. *)
Lemma serve_bookings (q : Request) (db : Db) :
  let l := bookings db in
  let l' := bookings (serving q db) in
  l' = l
  \/ (exists i b b',
        findById i l = Some b /\ _id b' = i
        /\ replaceById b' l = Some l'
        /\ startDate b' < endDate b'
        /\ schemaValid b' = true
        /\ bookingId b' = bookingId b)
  \/ (exists i s, l' = snd (findByIdAndUpdate i s l)).
Proof.
  cbn zeta. destruct q as [id sd ed|now u f|e u r|now e u id|id s]; cbn [serve].
  - now left.
  - left. now rewrite createRazorpayOrder_db.
  - left. now rewrite (proj2 (verifyPayment_fails tz RAZORPAY_KEY_SECRET
                                 hmacSha256Hex e u r db)).
  - destruct (cancelBooking_cases now e u id db)
      as [[_ ->]|(b & l' & F & _ & _ & _ & Hlt & Hup & Hres)]; [now left|].
    assert (Hv : schemaValid b = true).
    { apply (cancelBooking_ok_valid now e u id db b F). now rewrite Hres. }
    rewrite Hres. right; left. cbn [snd bookings].
    rewrite generateBookingId_keeps in Hup
      by (apply schemaValid_truthy; exact Hv).
    exists id, b, (set_status cancelled b).
    apply updateOne_Some in Hup. apply findById_Some in F as HF.
    destruct HF as [_ Hid]. repeat split; trivial.
  - right; right. exists id, s. unfold updateBookingStatus.
    destruct (findById id (bookings db)) as [b|] eqn:F.
    + destruct (findById_split id _ b F) as (l1 & l2 & _ & _ & Hu & _).
      now rewrite Hu.
    + now rewrite (findByIdAndUpdate_miss id s _ F).
Qed.

Lemma serve_datesOrdered (q : Request) (db : Db) :
  datesOrdered db -> datesOrdered (serving q db).
Proof.
  unfold datesOrdered. intros H.
  destruct (serve_bookings q db)
    as [->|[(i & b & b' & F & Hi & R & Hlt & _)|(i & s & ->)]].
  - exact H.
  - destruct (replaceById_found i b b' _ F Hi) as (l'' & R' & _ & _ & _ & HP).
    rewrite R in R'. injection R' as <-. now apply HP.
  - now apply findByIdAndUpdate_spec.
Qed.

Lemma serve_idsUnique (q : Request) (db : Db) :
  idsUnique db -> idsUnique (serving q db).
Proof.
  unfold idsUnique. intros (H1 & H2 & H3).
  destruct (serve_bookings q db)
    as [->|[(i & b & b' & F & Hi & R & _ & Hv & Hk)|(i & s & ->)]].
  - auto.
  - destruct (replaceById_found i b b' _ F Hi) as (l'' & R' & _ & _ & Hm & HP).
    rewrite R in R'. injection R' as <-.
    apply findById_Some in F as [Hin Hid].
    rewrite (Hm _ _id) by congruence.
    rewrite (Hm _ bookingId) by exact Hk.
    split; [exact H1|]. split; [exact H2 | now apply HP].
  - pose proof (findByIdAndUpdate_spec i s (bookings db)) as (_ & Hm & HP).
    rewrite (Hm _ _id), (Hm _ bookingId) by reflexivity.
    split; [exact H1|]. split; [exact H2 | now apply HP].
Qed.

Lemma serve_idPairs (q : Request) (db : Db) :
  incl (List.map idPair (bookings db)) (List.map idPair (bookings (serving q db))).
Proof.
  destruct (serve_bookings q db)
    as [->|[(i & b & b' & F & Hi & R & _ & _ & Hk)|(i & s & ->)]].
  - apply incl_refl.
  - destruct (replaceById_found i b b' _ F Hi) as (l'' & R' & _ & _ & Hm & _).
    rewrite R in R'. injection R' as <-.
    apply findById_Some in F as [Hin Hid].
    rewrite (Hm _ idPair); [apply incl_refl|].
    unfold idPair. rewrite Hk. congruence.
  - pose proof (findByIdAndUpdate_spec i s (bookings db)) as (_ & Hm & _).
    rewrite (Hm _ idPair) by reflexivity. apply incl_refl.
Qed.

End Invariants.

Section Lifecycle.

Variable tz : Z.
Variable RAZORPAY_KEY_ID : string.
Variable RAZORPAY_KEY_SECRET : string.
Variable hmacSha256Hex : string -> string -> string.
Variable razorpayOrdersCreate : OrderOptions -> option ProviderOrder.

Local Abbreviation serving :=
  (serve tz RAZORPAY_KEY_ID RAZORPAY_KEY_SECRET hmacSha256Hex
     razorpayOrdersCreate).

(** *** C8: interval ordering *)

(** C8, as the code has it.  The ordering check is a [pre('save')] hook and
    runs once the schema validation has passed.  Every [save] of a booking
    whose [startDate] is not before its [endDate] fails and writes nothing:
    with the error of the hook when the document passes the validation, as a
    loaded booking does when its owner cancels it, with a validation error
    otherwise.  The booking that [/verify-payment] builds has no [bookingId],
    fails the validation and never reaches the hook.  The administrator's
    status update is an update query: it runs neither and writes the status
    whatever the dates of the stored document are.  It does not touch the
    dates, so from a collection in which every booking starts strictly before
    it ends every request leads to such a collection again. *)
Theorem C8_interval_ordering :
  (forall e isNew b db,
      endDate b <= startDate b ->
      exists err, save e isNew b db = inl err
                  /\ (schemaValid b = true ->
                      err = HookError "End date must be after start date"))
  /\ (forall e u r d db,
        exists paths,
          save e true (newBooking e u r d) db = inl (ValidationError paths)
          /\ In "bookingId" paths)
  /\ (forall id s db b,
        findById id (bookings db) = Some b ->
        fst (updateBookingStatus id s db) = Ok 200 (set_status s b)
        /\ In (set_status s b) (bookings (snd (updateBookingStatus id s db))))
  /\ (forall q db, datesOrdered db -> datesOrdered (serving q db)).
Proof.
  split; [|split; [|split]].
  - intros e isNew b db H. unfold save.
    destruct (invalidPaths b) as [|p ps] eqn:V.
    + rewrite preSave_rejects by exact H. eauto.
    + eexists. split; [reflexivity|]. intros Hv.
      apply schemaValid_nil in Hv. congruence.
  - intros e u r d db. now apply save_unidentified.
  - intros id s db b F. unfold updateBookingStatus.
    pose proof (findByIdAndUpdate_spec id s (bookings db)) as (H1 & _).
    rewrite F in H1. cbn [option_map] in H1.
    pose proof (findByIdAndUpdate_In id s (bookings db) b F) as H2.
    destruct (findByIdAndUpdate id s (bookings db)) as [o l'] eqn:U.
    cbn [fst snd] in H1, H2. subst o. cbn [fst snd bookings]. now split.
  - intros q db. apply serve_datesOrdered.
Qed.

(** *** C9: the booking identifier *)

(** C9, on the code.  The booking that [/verify-payment] builds has no
    [bookingId].  A save of a document without one stops at the validation,
    where [bookingId] is required, before the hook that would generate it:
    the hook assigns nothing in any save that succeeds, and a correctly
    signed request for a free car is answered 500 with no booking stored.
    The identifier is not assigned at first persistence. *)
Theorem C9_generator_unreached :
  (forall e u r d, bookingId (newBooking e u r d) = None)
  /\ (forall e isNew b db,
        falsy (bookingId b) = true ->
        exists paths,
          save e isNew b db = inl (ValidationError paths)
          /\ In "bookingId" paths)
  /\ (forall e isNew b db b' db',
        save e isNew b db = inr (b', db') ->
        falsy (bookingId b) = false /\ bookingId b' = bookingId b)
  /\ verifyPayment Sample.ist "S" Sample.toyHmac Sample.entropy Sample.alice
       (Sample.request daily (mkTime 10 0) (mkTime 10 0)) Sample.emptyDb
     = (Err 500 "Server error during payment verification or booking creation",
        Sample.emptyDb).
Proof.
  split; [reflexivity|]. split; [apply save_unidentified|]. split.
  - intros e isNew b db b' db' W.
    apply save_inr_valid in W as [V ->].
    split; [now apply schemaValid_truthy | reflexivity].
  - vm_compute. reflexivity.
Qed.

(** *** C10: the interval of the re-check *)


End Lifecycle.

(** ** The handlers on the sample data *)

Import Sample.

(** A paid daily booking from 2024-01-01 to 2024-01-03 on a server in India:
    the document built for it is refused for its missing identifier, and the
    store keeps no trace of the payment.  A document that comes with its
    identifier is saved. *)
Example verifyPayment_runs :
  let r := request daily (mkTime 10 0) (mkTime 10 0) in
  save entropy true
    (newBooking entropy alice r
       (calculateBookingDetails ist carSwift (mkDate 2024 1 1) (mkDate 2024 1 3)
          (mkTime 10 0) (mkTime 10 0) daily)) emptyDb
  = inl (ValidationError ["bookingId"])
  /\ verifyPayment ist "S" toyHmac entropy alice r emptyDb
     = (Err 500 "Server error during payment verification or booking creation",
        emptyDb)
  /\ save entropy true booking1 emptyDb = inr (booking1, db1).
Proof. vm_compute. repeat split. Qed.

(** The same request when a confirmed booking already holds the car. *)
Example verifyPayment_conflict :
  verifyPayment ist "S" toyHmac (mkEntropy 1704067200001 "0.zzzzzzz" "b2") bob
    (request daily (mkTime 10 0) (mkTime 10 0)) db1
  = (Err 400 "Car is no longer available for the selected dates/times.", db1).
Proof. vm_compute. reflexivity. Qed.

(** C4 as the spec words its example fails: the booking from 2024-01-01 to
    2024-01-03 is not priced at 2 days. *)
Lemma C4_counterexample :
  let r := calculateBookingDetails ist carSwift (mkDate 2024 1 1)
             (mkDate 2024 1 3) (mkTime 10 0) (mkTime 10 0) daily in
  ~ (det_duration r = 2 /\ det_totalAmount r = 2 * pricePerDay carSwift).
Proof. vm_compute. intros [H _]. discriminate H. Qed.

(** C6 on the sample car: 3 days at 1500 are asked for as 450000 paise. *)
Lemma C6_witness :
  cars emptyDb !! carId (form daily (mkTime 10 0) (mkTime 10 0))
  = Some carSwift
  /\ snd (createRazorpayOrder ist "rzp_key" provider 1704000000000 alice
            (form daily (mkTime 10 0) (mkTime 10 0)) emptyDb)
     = [mkOptions 450000 "INR" "receipt_order_1704000000000" 1].
Proof.
  assert (H : cars emptyDb !! carId (form daily (mkTime 10 0) (mkTime 10 0))
              = Some carSwift) by (vm_compute; reflexivity).
  split; [exact H|].
  refine (proj2 (proj2 (C6_order_creation ist "rzp_key" provider 1704000000000
                          alice _ emptyDb carSwift H)) _).
  vm_compute. reflexivity.
Defined.

(** C7 on the sample booking: Alice cancels her booking before it starts. *)
Lemma C7_witness :
  datesOrdered db1 /\ idsUnique db1
  /\ findById "b1" (bookings db1) = Some booking1
  /\ fst (cancelBooking 1700000000000 entropy alice "b1" db1)
     = Ok 200 (set_status cancelled booking1).
Proof.
  assert (Hd : datesOrdered db1).
  { constructor; [vm_compute; reflexivity | constructor]. }
  assert (Hi : idsUnique db1).
  { split; [|split].
    - constructor; [intros [] | constructor].
    - constructor; [intros [] | constructor].
    - constructor; [reflexivity | constructor]. }
  assert (Hf : findById "b1" (bookings db1) = Some booking1) by reflexivity.
  split; [exact Hd|]. split; [exact Hi|]. split; [exact Hf|].
  refine (proj1 (proj1 (C7_cancellation 1700000000000 entropy alice "b1" db1
                          booking1 Hd Hi Hf) _)).
  split; [reflexivity|]. split; [vm_compute; reflexivity | discriminate].
Defined.

(** C8 as stated fails: the administrator's status update writes a booking
    whose [startDate] is not before its [endDate], and no check stops it. *)
Lemma C8_counterexample :
  endDate bookingFlat <= startDate bookingFlat
  /\ updateBookingStatus "b9" completed dbFlat
     = (Ok 200 (set_status completed bookingFlat),
        mkDb (cars dbFlat) [set_status completed bookingFlat])
  /\ ~ startDate (set_status completed bookingFlat)
       < endDate (set_status completed bookingFlat).
Proof.
  split; [vm_compute; discriminate|]. split; [reflexivity|].
  vm_compute. discriminate.
Qed.


(** Alice cancels before the start; a second attempt is refused, and so is
    an attempt on a booking that has started or one by somebody else. *)
Example cancel_twice :
  let first := cancelBooking 1700000000000 entropy alice "b1" db1 in
  fst first = Ok 200 (set_status cancelled booking1)
  /\ cancelBooking 1700000000001 entropy alice "b1" (snd first)
     = (Err 400 "Booking is already cancelled", snd first)
  /\ cancelBooking 1704067200000 entropy alice "b1" db1
     = (Err 400 "Cannot cancel booking that has already started", db1)
  /\ cancelBooking 1700000000000 entropy bob "b1" db1
     = (Err 403 "Access denied", db1).
Proof. vm_compute. repeat split. Qed.

(** A daily booking that starts and ends on the same date is priced at one
    day, and its save is refused: nothing is committed. *)
Example same_day_booking :
  let r := mkVerify "order_1" "pay_1" (toyHmac "S" "order_1|pay_1")
             (mkForm "c1" (mkDate 2024 1 1) (mkDate 2024 1 1) (mkTime 9 0)
                (mkTime 18 0) daily "Airport" "Station" None) in
  det_duration
    (calculateBookingDetails ist carSwift (mkDate 2024 1 1) (mkDate 2024 1 1)
       (mkTime 9 0) (mkTime 18 0) daily) = 1
  /\ verifyPayment ist "S" toyHmac entropy alice r emptyDb
     = (Err 500 "Server error during payment verification or booking creation",
        emptyDb).
Proof. vm_compute. split; reflexivity. Qed.

Example calendar_days :
  daysFromCivil (mkDate 1970 1 1) = 0
  /\ daysFromCivil (mkDate 2024 1 1) = 19723
  /\ daysFromCivil (mkDate 2024 3 1) = 19783
  /\ newDate (mkDate 2024 1 1) = 1704067200000.
Proof. repeat split. Qed.

(** * Further properties *)

(** ** The overlap query and the intervals *)

(** X1.  For a query interval and a booking that are both well-formed, the
    overlap query selects the booking exactly when it is an active booking of
    the car and some instant lies in both closed intervals. *)
Theorem overlapQuery_intersect (id : string) (s e : Z) (b : Booking) :
  s <= e -> startDate b <= endDate b ->
  (overlapQuery id s e b = true
   <-> car b = id /\ activeStatus (status b) = true
       /\ exists t, s <= t <= e /\ startDate b <= t <= endDate b).
Proof.
  intros Hq Hb. rewrite overlapQuery_true, activeStatus_true. split.
  - intros (Hc & Ha & H1 & H2). repeat split; trivial.
    exists (Z.max s (startDate b)). lia.
  - intros (Hc & Ha & t & Ht1 & Ht2). repeat split; trivial; lia.
Qed.

(** X2.  If a car is free for a period, it is free for every period of dates
    inside it. *)
Theorem availability_narrows (id : string) (sd ed sd' ed' : DateStr) (db : Db) :
  daysFromCivil sd <= daysFromCivil sd' ->
  daysFromCivil ed' <= daysFromCivil ed ->
  checkAvailability id sd ed db
  = Ok 200 (mkAvailability true "Car is available for the selected dates") ->
  checkAvailability id sd' ed' db
  = Ok 200 (mkAvailability true "Car is available for the selected dates").
Proof.
  intros Hs He. unfold checkAvailability.
  destruct (cars db !! id) as [c|]; [|discriminate].
  destruct (isAvailable c); [|rewrite !andb_false_r; discriminate].
  rewrite !andb_true_r.
  destruct (findOne (overlapQuery id (newDate sd) (newDate ed)) (bookings db))
    as [x|] eqn:F.
  { rewrite bool_decide_eq_true_2 by eauto. discriminate. }
  intros _.
  destruct (findOne (overlapQuery id (newDate sd') (newDate ed')) (bookings db))
    as [x|] eqn:F'; [|reflexivity].
  exfalso. apply findOne_None in F. apply F.
  assert (HF : is_Some (findOne (overlapQuery id (newDate sd') (newDate ed'))
                          (bookings db))) by (rewrite F'; eauto).
  apply findOne_Some in HF as (b & Hin & Hq). exists b. split; [exact Hin|].
  apply overlapQuery_true in Hq as (Hc & Ha & H1 & H2).
  apply overlapQuery_true. unfold newDate in *.
  rewrite msPerDay_val in *. repeat split; trivial; lia.
Qed.

(** ** Pricing *)

(** X3.  The price does not depend on the server's offset from UTC, and the
    price of a daily booking does not depend on the two times of day. *)
Theorem pricing_offset_free (tz tz' : Z) (c : Car) (sd ed : DateStr)
    (st et st' et' : TimeStr) (ty : BookingType) :
  calculateBookingDetails tz c sd ed st et ty
  = calculateBookingDetails tz' c sd ed st et ty
  /\ calculateBookingDetails tz c sd ed st et daily
     = calculateBookingDetails tz' c sd ed st' et' daily.
Proof.
  assert (Hd : forall z z' a b a' b',
             calculateBookingDetails z c sd ed a b daily
             = calculateBookingDetails z' c sd ed a' b' daily).
  { intros. cbn [calculateBookingDetails]. now rewrite !daily_span. }
  split; [|apply Hd].
  destruct ty; [|apply Hd].
  cbn [calculateBookingDetails].
  replace (newDateTime tz ed et - newDateTime tz sd st)
    with (newDateTime tz' ed et - newDateTime tz' sd st)
    by (unfold newDateTime; lia).
  reflexivity.
Qed.

(** ** Deleting a car *)

Lemma countDocuments_pos {A : Type} (q : A -> bool) (l : list A) :
  countDocuments q l > 0 <-> exists x, In x l /\ q x = true.
Proof.
  unfold countDocuments. split.
  - intros H. destruct (List.filter q l) as [|x r] eqn:F; [cbn in H; lia|].
    exists x. apply filter_In. rewrite F. now left.
  - intros (x & Hx). apply filter_In in Hx.
    destruct (List.filter q l); [destruct Hx | cbn; lia].
Qed.

Lemma activeOnCar_true (id : string) (b : Booking) :
  activeOnCar id b = true
  <-> car b = id /\ (status b = confirmed \/ status b = pending).
Proof.
  unfold activeOnCar. now rewrite andb_true_iff, String.eqb_eq, activeStatus_true.
Qed.

(** X4.  A car is deleted exactly when it exists and none of its bookings is
    confirmed or pending: such a booking blocks the deletion and the store is
    unchanged; otherwise the car alone is removed and the booking collection,
    with the closed bookings that still refer to the car, stays as it is. *)
Theorem deleteCar_guard (id : string) (db : Db) :
  let blocked :=
    exists b, In b (bookings db) /\ car b = id
              /\ (status b = confirmed \/ status b = pending) in
  (blocked ->
     deleteCar id db = (Err 400 "Cannot delete car with active bookings", db))
  /\ (~ blocked -> cars db !! id = None ->
        deleteCar id db = (Err 404 "Car not found", db))
  /\ (~ blocked -> is_Some (cars db !! id) ->
        fst (deleteCar id db) = Ok 200 "Car deleted successfully"
        /\ cars (snd (deleteCar id db)) !! id = None
        /\ (forall j, j <> id ->
              cars (snd (deleteCar id db)) !! j = cars db !! j)
        /\ bookings (snd (deleteCar id db)) = bookings db).
Proof.
  cbn zeta.
  assert (Hb : countDocuments (activeOnCar id) (bookings db) > 0
               <-> exists b, In b (bookings db) /\ car b = id
                             /\ (status b = confirmed \/ status b = pending)).
  { rewrite countDocuments_pos. split; intros (b & Hin & H); exists b;
      (split; [exact Hin | now apply activeOnCar_true]). }
  unfold deleteCar.
  destruct (Z.gtb_spec (countDocuments (activeOnCar id) (bookings db)) 0) as [G|G].
  - assert (Hbl : exists b, In b (bookings db) /\ car b = id
                              /\ (status b = confirmed \/ status b = pending))
      by (apply Hb; lia).
    split; [reflexivity|]. split; intros Hn; contradiction.
  - split; [intros Hbl; apply Hb in Hbl; lia|].
    split.
    + intros _ ->. reflexivity.
    + intros _ [c Hc]. rewrite Hc. cbn [fst snd cars bookings].
      split; [reflexivity|]. split; [apply lookup_delete_eq|].
      split; [|reflexivity]. intros j Hj. now apply lookup_delete_ne.
Qed.

(** ** A verified payment and the store *)

Section PaymentOutcome.

Variable tz : Z.
Variable RAZORPAY_KEY_ID : string.
Variable RAZORPAY_KEY_SECRET : string.
Variable hmacSha256Hex : string -> string -> string.
Variable razorpayOrdersCreate : OrderOptions -> option ProviderOrder.

Local Abbreviation verify := (verifyPayment tz RAZORPAY_KEY_SECRET hmacSha256Hex).
Local Abbreviation createOrder :=
  (createRazorpayOrder tz RAZORPAY_KEY_ID razorpayOrdersCreate).

(** X5.  [/verify-payment] never creates a booking: whatever the request and
    the store, it answers an error and leaves the store as it was, since the
    document it builds has no [bookingId] and its save stops at the
    validation.  It answers the 500 error exactly when every check of the
    handler has passed: the signature matches, the car exists and is flagged
    available, and no confirmed or pending booking of the car overlaps the
    re-check interval. *)
Theorem verifyPayment_never_commits (e : Entropy) (u : User) (r : VerifyRequest)
    (db : Db) :
  let f := bookingDetails r in
  (is_ok (fst (verify e u r db)) = false /\ snd (verify e u r db) = db)
  /\ (fst (verify e u r db)
      = Err 500 "Server error during payment verification or booking creation"
      <-> razorpay_signature r
          = expectedSignature RAZORPAY_KEY_SECRET hmacSha256Hex r
          /\ (exists c, cars db !! carId f = Some c /\ isAvailable c = true)
          /\ ~ conflicting (carId f) (startDateTimeForCheck tz f)
                 (endDateTimeForCheck tz f) (bookings db)).
Proof.
  intros f. split; [apply verifyPayment_fails|].
  unfold verifyPayment. fold f.
  destruct (String.eqb_spec (expectedSignature RAZORPAY_KEY_SECRET hmacSha256Hex r)
              (razorpay_signature r)) as [S|S]; cbn [negb fst].
  2:{ split; [discriminate|]. intros (H & _). congruence. }
  destruct (cars db !! carId f) as [c|] eqn:C; cbn [fst].
  2:{ split; [discriminate|]. intros (_ & (c & H & _) & _). discriminate. }
  destruct (isAvailable c) eqn:A; cbn [negb fst].
  2:{ split; [discriminate|]. intros (_ & (c' & H & H') & _). congruence. }
  rewrite <- overlapping_conflicting.
  destruct (findOne _ _) as [x|] eqn:Q; cbn [fst].
  { split; [discriminate|]. intros (_ & _ & H). exfalso. apply H. eauto. }
  destruct (save_unidentified e true
              (newBooking e u r
                 (calculateBookingDetails tz c (form_startDate f)
                    (form_endDate f) (form_startTime f) (form_endTime f)
                    (form_bookingType f))) db eq_refl) as (paths & -> & _).
  cbn [fst]. split; [|reflexivity]. intros _.
  split; [now symmetry|]. split; [eauto|]. intros [y Hy]. discriminate.
Qed.

(** X7.  Once a car is deleted, the availability check and the payment
    verification for it answer that the car is not found, and the
    verification commits nothing; the requests for the other cars see the
    store they saw before, apart from the missing car. *)
Theorem deleteCar_then (id : string) (db : Db) (sd ed : DateStr) (e : Entropy)
    (u : User) (r : VerifyRequest) :
  is_ok (fst (deleteCar id db)) = true ->
  let db' := snd (deleteCar id db) in
  checkAvailability id sd ed db' = Err 404 "Car not found"
  /\ (carId (bookingDetails r) = id ->
      razorpay_signature r
      = expectedSignature RAZORPAY_KEY_SECRET hmacSha256Hex r ->
      verify e u r db' = (Err 404 "Car not found", db'))
  /\ (forall j, j <> id ->
        checkAvailability j sd ed db' = checkAvailability j sd ed db).
Proof.
  intros Hok.
  assert (Hdb : snd (deleteCar id db) = mkDb (delete id (cars db)) (bookings db)).
  { revert Hok. unfold deleteCar. destruct (_ >? 0); [discriminate|].
    destruct (cars db !! id); [reflexivity | discriminate]. }
  cbn zeta. rewrite Hdb. split; [|split].
  - unfold checkAvailability. cbn [cars]. now rewrite lookup_delete_eq.
  - intros Hid Hsig. unfold verifyPayment. rewrite <- Hsig, String.eqb_refl.
    cbn [negb cars]. now rewrite Hid, lookup_delete_eq.
  - intros j Hj. unfold checkAvailability. cbn [cars bookings].
    now rewrite lookup_delete_ne.
Qed.

End PaymentOutcome.

(** ** The administrator's status update *)

(** X8.  The status update answers 404 and changes nothing when no booking
    has the identifier; otherwise it sets the status of that booking and of
    no other, keeps every other field of it, keeps the order and number of
    the documents, and leaves the cars alone.  It asks nothing about owner,
    time or previous status. *)
Theorem updateBookingStatus_frame (id : string) (s : Status) (db : Db) :
  match findById id (bookings db) with
  | None => updateBookingStatus id s db = (Err 404 "Booking not found", db)
  | Some b =>
      fst (updateBookingStatus id s db) = Ok 200 (set_status s b)
      /\ cars (snd (updateBookingStatus id s db)) = cars db
      /\ findById id (bookings (snd (updateBookingStatus id s db)))
         = Some (set_status s b)
      /\ (forall j, j <> id ->
            findById j (bookings (snd (updateBookingStatus id s db)))
            = findById j (bookings db))
      /\ List.map idPair (bookings (snd (updateBookingStatus id s db)))
         = List.map idPair (bookings db)
  end.
Proof.
  unfold updateBookingStatus.
  destruct (findById id (bookings db)) as [b|] eqn:F.
  - destruct (findById_split id _ b F) as (l1 & l2 & Hl & Hl1 & Hu & Hr).
    rewrite Hu. cbn [fst snd cars bookings].
    pose proof (findById_Some _ _ _ F) as [_ Hid].
    destruct (replaceById_found id b (set_status s b) _ F Hid)
      as (l' & R & Hf & Ho & Hm & _).
    rewrite (Hr (set_status s b) Hid) in R. injection R as <-.
    repeat split; trivial. now apply Hm.
  - now rewrite (findByIdAndUpdate_miss id s _ F).
Qed.

(** X9.  Status updates of one booking compose as overwrites: after two
    updates the store is the store after the second alone, so repeating an
    update changes nothing more. *)
Theorem updateBookingStatus_overwrites (id : string) (s1 s2 : Status) (db : Db) :
  snd (updateBookingStatus id s2 (snd (updateBookingStatus id s1 db)))
  = snd (updateBookingStatus id s2 db).
Proof.
  unfold updateBookingStatus.
  destruct (findById id (bookings db)) as [b|] eqn:F.
  - destruct (findById_split id _ b F) as (l1 & l2 & Hl & Hl1 & Hu & _).
    rewrite !Hu. cbn [snd bookings cars].
    assert (F' : findById id (l1 ++ set_status s1 b :: l2)
                 = Some (set_status s1 b)).
    { rewrite findById_app_miss by exact Hl1.
      apply findById_Some in F as [_ Hid].
      unfold findById, findOne. cbn. unfold sameId at 1. cbn [_id set_status].
      now rewrite Hid, String.eqb_refl. }
    destruct (findById_split id _ _ F') as (k1 & k2 & Hk & Hk1 & Hu' & _).
    rewrite Hu'. cbn [snd].
    assert (Hsame : sameId id (set_status s1 b) = true).
    { apply findById_Some in F' as [_ Hid]. unfold sameId.
      rewrite Hid. apply String.eqb_refl. }
    destruct (split_unique id _ _ _ _ _ _ Hl1 Hk1 Hsame Hsame Hk)
      as (-> & _ & ->).
    reflexivity.
  - now rewrite (findByIdAndUpdate_miss id s1 _ F).
Qed.

(** ** Cancelling releases the car *)

Lemma findOne_skip (q : Booking -> bool) (l1 l2 : list Booking) (x : Booking) :
  q x = false -> findOne q (l1 ++ x :: l2) = findOne q (l1 ++ l2).
Proof.
  intros Hx. unfold findOne. induction l1 as [|a l1 IH]; cbn.
  - now rewrite Hx.
  - now rewrite IH.
Qed.


(** X10.  After a successful cancellation the availability check answers,
    for every car and period, what it would answer had the cancelled booking
    never been stored. *)
Theorem cancel_releases (now : Z) (e : Entropy) (u : User) (id : string)
    (db : Db) (b : Booking) :
  findById id (bookings db) = Some b ->
  is_ok (fst (cancelBooking now e u id db)) = true ->
  exists l1 l2,
    bookings db = l1 ++ b :: l2
    /\ forall j sd ed,
         checkAvailability j sd ed (snd (cancelBooking now e u id db))
         = checkAvailability j sd ed (mkDb (cars db) (l1 ++ l2)).
Proof.
  intros F Hok.
  destruct (cancelBooking_cases now e u id db)
    as [[Hf _]|(b0 & l' & F0 & _ & _ & _ & _ & Hup & Hres)]; [congruence|].
  rewrite F in F0. injection F0 as <-.
  destruct (findById_split id _ b F) as (l1 & l2 & Hl & _ & _ & Hr).
  exists l1, l2. split; [exact Hl|].
  apply updateOne_Some in Hup.
  destruct (generateBookingId_fields e (set_status cancelled b))
    as (Hi & _ & _ & Hst & _).
  pose proof (findById_Some _ _ _ F) as [_ Hid].
  rewrite (Hr (generateBookingId e (set_status cancelled b))) in Hup
    by (rewrite Hi; exact Hid).
  injection Hup as <-. rewrite Hres. cbn [snd].
  intros j sd ed. unfold checkAvailability. cbn [cars bookings].
  destruct (cars db !! j); [|reflexivity].
  rewrite findOne_skip; [reflexivity|].
  unfold overlapQuery. rewrite Hst. cbn [status set_status activeStatus].
  now rewrite andb_false_r.
Qed.

(** ** The booking counter of a car *)



Section Counter.

Variable tz : Z.
Variable RAZORPAY_KEY_ID : string.
Variable RAZORPAY_KEY_SECRET : string.
Variable hmacSha256Hex : string -> string -> string.
Variable razorpayOrdersCreate : OrderOptions -> option ProviderOrder.

Local Abbreviation serving :=
  (serve tz RAZORPAY_KEY_ID RAZORPAY_KEY_SECRET hmacSha256Hex
     razorpayOrdersCreate).


End Counter.

(** ** Revenue *)

Lemma totalRevenue_app (l1 l2 : list Booking) :
  totalRevenue (l1 ++ l2) = totalRevenue l1 + totalRevenue l2.
Proof.
  unfold totalRevenue. rewrite List.filter_app, List.map_app.
  induction (List.map totalAmount _) as [|a r IH]; cbn; lia.
Qed.

Lemma totalRevenue_cons (b : Booking) (l : list Booking) :
  totalRevenue (b :: l)
  = (if bool_decide (status b = completed) then totalAmount b else 0)
    + totalRevenue l.
Proof.
  unfold totalRevenue. cbn [List.filter].
  destruct (bool_decide (status b = completed)); reflexivity.
Qed.

(** X12.  The revenue of the dashboard is the sum of the totals of the
    completed bookings, so a verified payment does not move it, and a status
    update moves it by the total of the updated booking: added when the
    booking becomes completed, taken away when it stops being so. *)
Theorem totalRevenue_moves (tz : Z) (secret : string)
    (hmac : string -> string -> string) :
  (forall e u r db,
      totalRevenue (bookings (snd (verifyPayment tz secret hmac e u r db)))
      = totalRevenue (bookings db))
  /\ (forall id s db b,
        findById id (bookings db) = Some b ->
        totalRevenue (bookings (snd (updateBookingStatus id s db)))
        = totalRevenue (bookings db)
          - (if bool_decide (status b = completed) then totalAmount b else 0)
          + (if bool_decide (s = completed) then totalAmount b else 0)).
Proof.
  split.
  - intros e u r db.
    destruct (verifyPayment_cases tz secret hmac e u r db)
      as [[_ ->]|(c & b & _ & Hb & _ & _ & ->)]; [reflexivity|].
    cbn [snd bookings]. rewrite totalRevenue_app, totalRevenue_cons.
    destruct (generateBookingId_fields e
                (newBooking e u r
                   (calculateBookingDetails tz c
                      (form_startDate (bookingDetails r))
                      (form_endDate (bookingDetails r))
                      (form_startTime (bookingDetails r))
                      (form_endTime (bookingDetails r))
                      (form_bookingType (bookingDetails r)))))
      as (_ & _ & _ & Hst & _).
    rewrite Hb, Hst. cbn [newBooking status].
    rewrite bool_decide_eq_false_2 by discriminate.
    change (totalRevenue []) with 0. lia.
  - intros id s db b F. unfold updateBookingStatus.
    destruct (findById_split id _ b F) as (l1 & l2 & Hl & _ & Hu & _).
    rewrite Hu. cbn [snd bookings]. rewrite Hl.
    rewrite !totalRevenue_app, !totalRevenue_cons. cbn [status set_status totalAmount].
    lia.
Qed.

(** ** Reading one booking *)

(** X13.  [GET /:id] hands a booking out only to its owner or to an
    administrator: it answers the stored booking with that identifier, its
    car and its owner exactly when the booking and the owner's account exist
    and the requester is the owner or an administrator. *)
Theorem getBooking_access (users : gmap string User) (u : User) (id : string)
    (db : Db) (code : Z) (v : BookingView) :
  getBooking users u id db = Ok code v
  <-> code = 200
      /\ exists b o,
           findById id (bookings db) = Some b
           /\ users !! user b = Some o
           /\ (user b = user_id u \/ isAdmin u = true)
           /\ v = mkView b (cars db !! car b) o.
Proof.
  unfold getBooking.
  destruct (findById id (bookings db)) as [b|] eqn:F.
  2:{ split; [discriminate|]. intros (_ & b & o & H & _). discriminate. }
  destruct (users !! user b) as [o|] eqn:O.
  2:{ split; [discriminate|]. intros (_ & b' & o & H & H' & _).
      injection H as <-. congruence. }
  assert (Hback : forall b' o', Some b = Some b' -> users !! user b' = Some o' ->
                    mkView b (cars db !! car b) o
                    = mkView b' (cars db !! car b') o').
  { intros b' o' [= <-] H'. congruence. }
  destruct (String.eqb_spec (user b) (user_id u)) as [E|E]; cbn [negb andb].
  - split.
    + intros H. injection H as <- <-. split; [reflexivity|]. exists b, o. auto.
    + intros (-> & b' & o' & H & H' & _ & ->). f_equal. now apply Hback.
  - destruct (isAdmin u) eqn:A; cbn [negb].
    + split.
      * intros H. injection H as <- <-. split; [reflexivity|]. exists b, o. auto.
      * intros (-> & b' & o' & H & H' & _ & ->). f_equal. now apply Hback.
    + split; [discriminate|].
      intros (_ & b' & o' & H & _ & [H'|H'] & _); [|discriminate].
      injection H as <-. contradiction.
Qed.

(** ** Pages *)

Lemma skipLimit_In {A : Type} (skip limit : Z) (l : list A) (x : A) :
  In x (skipLimit skip limit l) -> In x l.
Proof.
  unfold skipLimit. generalize (Z.to_nat limit) as n.
  generalize (Z.to_nat skip) as k. intros k n H.
  assert (Hd : In x (drop k l)).
  { revert H. generalize (drop k l) as m. induction n as [|n IH]; intros m.
    - intros [].
    - destruct m as [|y m]; cbn; [tauto|]. intros [->|H]; auto. }
  clear H. revert l Hd. induction k as [|k IH]; intros l; [trivial|].
  destruct l as [|y l]; cbn; [tauto|]. auto.
Qed.

Lemma skipLimit_length {A : Type} (skip limit : Z) (l : list A) :
  0 <= skip -> 0 <= limit ->
  Z.of_nat (length (skipLimit skip limit l))
  = Z.min limit (Z.max 0 (Z.of_nat (length l) - skip)).
Proof.
  intros Hs Hl. unfold skipLimit. rewrite length_take, length_drop. lia.
Qed.

(** The page metadata against the page number, for the page of a result of
    [total] documents. *)
Lemma paginationOf_spec (page limit total len : Z) :
  1 <= page -> 1 <= limit -> 0 <= total ->
  len = Z.min limit (Z.max 0 (total - (page - 1) * limit)) ->
  let pg := paginationOf page limit ((page - 1) * limit) len total in
  (hasNext pg = true <-> page < totalPages pg)
  /\ (len = 0 <-> totalPages pg < page)
  /\ (hasPrev pg = true <-> 1 < page)
  /\ len <= limit.
Proof.
  intros Hp Hl Ht Hlen. cbn [paginationOf hasNext totalPages hasPrev].
  pose proof (ceilDiv_bounds total limit ltac:(lia)) as Hc.
  rewrite Z.ltb_lt, Z.gtb_lt.
  set (c := ceilDiv total limit) in *.
  assert (Hnext : page < c <-> page * limit < total) by (split; intros; nia).
  assert (Hlast : c < page <-> total <= (page - 1) * limit)
    by (split; intros; nia).
  rewrite Hnext, Hlast. repeat split; try lia.
Qed.

Section ListProperties.

Variable sortBookings : list Booking -> list Booking.
Variable sortCars : list (string * Car) -> list (string * Car).
Variable otherCriteria : Car -> bool.

Hypothesis sortBookings_perm : forall l, Permutation (sortBookings l) l.
Hypothesis sortCars_perm : forall l, Permutation (sortCars l) l.

(** X14.  A page of [/my-bookings] holds only bookings of the requester that
    match the status asked for, each with the car it refers to, and at most
    [limit] of them; [hasNext] holds exactly before the last page and the
    page is empty exactly beyond it. *)
Theorem myBookings_page (u : User) (page limit : Z) (sq : StatusQuery)
    (db : Db) :
  1 <= page -> 1 <= limit ->
  exists items pg,
    myBookings sortBookings u page limit sq db = Ok 200 (items, pg)
    /\ (forall b oc,
          In (b, oc) items ->
          In b (bookings db) /\ user b = user_id u
          /\ matchesStatus sq b = true /\ oc = cars db !! car b)
    /\ Z.of_nat (length items) <= limit
    /\ (hasNext pg = true <-> page < totalPages pg)
    /\ (items = [] <-> totalPages pg < page).
Proof.
  intros Hp Hl. unfold myBookings.
  set (filter := fun b => (String.eqb (user b) (user_id u) && matchesStatus sq b)%bool).
  set (found := skipLimit ((page - 1) * limit) limit
                  (sortBookings (List.filter filter (bookings db)))).
  eexists _, _. split; [reflexivity|].
  assert (Hlen : Z.of_nat (length found)
                 = Z.min limit
                     (Z.max 0 (countDocuments filter (bookings db)
                               - (page - 1) * limit))).
  { subst found. rewrite skipLimit_length by nia.
    now rewrite (Permutation_length (sortBookings_perm _)). }
  pose proof (paginationOf_spec page limit (countDocuments filter (bookings db))
                (Z.of_nat (length found)) Hp Hl
                ltac:(unfold countDocuments; lia) Hlen)
    as (Hn & He & _ & Hle).
  split; [|split; [|split; [exact Hn|]]].
  - intros b oc Hin. apply in_map_iff in Hin as (b' & [= <- <-] & Hin).
    apply skipLimit_In in Hin.
    apply (Permutation_in _ (sortBookings_perm _)) in Hin.
    apply filter_In in Hin as [Hin Hf]. subst filter. cbn in Hf.
    apply andb_true_iff in Hf as [Hu Hs]. apply String.eqb_eq in Hu. auto.
  - now rewrite length_map.
  - rewrite <- He. split.
    + intros H. apply (f_equal (@length _)) in H.
      rewrite length_map in H. cbn in H. lia.
    + intros H. destruct found; [reflexivity | cbn in H; lia].
Qed.

Lemma bookedCarIds_conflicting (id : string) (s e : Z) (l : list Booking) :
  id ∈ bookedCarIds s e l <-> conflicting id s e l.
Proof.
  unfold bookedCarIds, conflicting.
  rewrite elem_of_remove_dups, list_elem_of_In, in_map_iff.
  split.
  - intros (b & Hc & Hin). apply filter_In in Hin as [Hin Hq].
    rewrite !andb_true_iff, activeStatus_true, Z.leb_le, Z.geb_le in Hq.
    exists b. intuition lia.
  - intros (b & Hin & Hc & Ha & H1 & H2). exists b. split; [exact Hc|].
    apply filter_In. split; [exact Hin|].
    rewrite !andb_true_iff, activeStatus_true, Z.leb_le, Z.geb_le.
    intuition lia.
Qed.

(** X15.  Every car on a page of the public list is a car of the catalogue
    flagged available, meets the criteria and the price bounds of the query
    and, when both dates are given, passes the availability check for them;
    the page holds at most [limit] cars and [hasNext] holds exactly before
    the last page. *)
Theorem listCars_sound (q : CarQuery) (db : Db) :
  1 <= q_page q -> 1 <= q_limit q ->
  exists items pg,
    listCars sortCars otherCriteria q db = Ok 200 (items, pg)
    /\ (forall id c,
          In (id, c) items ->
          cars db !! id = Some c
          /\ isAvailable c = true /\ otherCriteria c = true
          /\ (forall m, q_minPrice q = Some m -> m <= pricePerDay c)
          /\ (forall m, q_maxPrice q = Some m -> pricePerDay c <= m)
          /\ (forall sd ed,
                q_startDate q = Some sd -> q_endDate q = Some ed ->
                checkAvailability id sd ed db
                = Ok 200 (mkAvailability true
                            "Car is available for the selected dates")))
    /\ Z.of_nat (length items) <= q_limit q
    /\ (hasNext pg = true <-> q_page q < totalPages pg).
Proof.
  intros Hp Hl. unfold listCars.
  set (matching := List.filter (carFilter otherCriteria q db)
                     (map_to_list (cars db))).
  set (found := skipLimit ((q_page q - 1) * q_limit q) (q_limit q)
                  (sortCars matching)).
  eexists _, _. split; [reflexivity|].
  assert (Hlen : Z.of_nat (length found)
                 = Z.min (q_limit q)
                     (Z.max 0 (Z.of_nat (length matching)
                               - (q_page q - 1) * q_limit q))).
  { subst found. rewrite skipLimit_length by nia.
    now rewrite (Permutation_length (sortCars_perm _)). }
  pose proof (paginationOf_spec (q_page q) (q_limit q)
                (Z.of_nat (length matching)) (Z.of_nat (length found))
                Hp Hl ltac:(lia) Hlen) as (Hn & _ & _ & Hle).
  split; [|split; [exact Hle | exact Hn]].
  intros id c Hin. apply skipLimit_In in Hin.
  apply (Permutation_in _ (sortCars_perm _)) in Hin.
  apply filter_In in Hin as [Hin Hf].
  apply list_elem_of_In, elem_of_map_to_list in Hin.
  unfold carFilter, priceInRange in Hf. cbn [fst snd] in Hf.
  rewrite !andb_true_iff in Hf. destruct Hf as [[[Ha Ho] [Hlo Hhi]] Hd].
  split; [exact Hin|]. split; [exact Ha|]. split; [exact Ho|].
  split; [|split].
  - intros m Hm. rewrite Hm in Hlo. lia.
  - intros m Hm. rewrite Hm in Hhi. lia.
  - intros sd ed Hsd Hed. rewrite Hsd, Hed in Hd.
    apply negb_true_iff, bool_decide_eq_false in Hd.
    rewrite bookedCarIds_conflicting, <- overlapping_conflicting in Hd.
    unfold checkAvailability. rewrite Hin, Ha.
    rewrite bool_decide_eq_false_2 by exact Hd. reflexivity.
Qed.

End ListProperties.

(** ** The shape of a generated identifier *)

Lemma append_inj_length (a a' s s' : string) :
  String.length a = String.length a' ->
  a +:+ s = a' +:+ s' -> a = a' /\ s = s'.
Proof.
  revert a'. induction a as [|c a IH]; intros [|c' a']; cbn;
    try discriminate; [auto|].
  intros [= Hl] [= -> H]. destruct (IH a' Hl H) as [-> ->]. auto.
Qed.

Lemma substring_length_le (n m : nat) (s : string) :
  (String.length (String.substring n m s) <= m)%nat.
Proof.
  revert n m. induction s as [|c s IH]; intros [|n] [|m]; cbn; try lia.
  - specialize (IH 0%nat m). lia.
  - apply (IH n 0%nat).
  - apply (IH n (S m)).
Qed.

Lemma toUpperCase_length (s : string) :
  String.length (toUpperCase s) = String.length s.
Proof. induction s as [|c s IH]; cbn; [reflexivity | now rewrite IH]. Qed.

(** X16.  A generated identifier is [CG], the digits of the clock, and at
    most five further characters.  Two identifiers made at clock readings
    with the same number of digits are equal only when the readings and the
    random suffixes are: within such a range of time a collision takes the
    same millisecond and the same suffix. *)
Theorem newBookingId_shape (e1 e2 : Entropy) :
  String.length (pretty (date_now e1)) = String.length (pretty (date_now e2)) ->
  (exists suffix,
      newBookingId e1 = "CG" +:+ pretty (date_now e1) +:+ suffix
      /\ (String.length suffix <= 5)%nat)
  /\ (newBookingId e1 = newBookingId e2 ->
      date_now e1 = date_now e2
      /\ toUpperCase (String.substring 2 5 (random36 e1))
         = toUpperCase (String.substring 2 5 (random36 e2))).
Proof.
  intros Hlen. split.
  - eexists. split; [reflexivity|].
    rewrite toUpperCase_length. apply substring_length_le.
  - unfold newBookingId. intros H.
    apply (append_inj_length "CG" "CG") in H as [_ H]; [|reflexivity].
    apply append_inj_length in H as [Hn Hs]; [|exact Hlen].
    split; [now apply pretty_Z_inj | exact Hs].
Qed.

(** ** The further properties on the sample data *)

Import Fixtures.

Lemma overlapQuery_intersect_witness :
  overlapQuery "c1" (newDate (mkDate 2024 1 3)) (newDate (mkDate 2024 1 5))
    booking1 = true
  <-> car booking1 = "c1" /\ activeStatus (status booking1) = true
      /\ exists t,
           newDate (mkDate 2024 1 3) <= t <= newDate (mkDate 2024 1 5)
           /\ startDate booking1 <= t <= endDate booking1.
Proof. apply overlapQuery_intersect; vm_compute; discriminate. Defined.

Lemma availability_narrows_witness :
  checkAvailability "c1" (mkDate 2024 1 5) (mkDate 2024 1 6) db1
  = Ok 200 (mkAvailability true "Car is available for the selected dates").
Proof.
  apply (availability_narrows "c1" (mkDate 2024 1 4) (mkDate 2024 1 8)).
  - vm_compute. discriminate.
  - vm_compute. discriminate.
  - vm_compute. reflexivity.
Defined.

Lemma deleteCar_then_witness :
  is_ok (fst (deleteCar "c1" dbClosed)) = true
  /\ checkAvailability "c1" (mkDate 2024 1 1) (mkDate 2024 1 3)
       (snd (deleteCar "c1" dbClosed))
     = Err 404 "Car not found".
Proof.
  assert (H : is_ok (fst (deleteCar "c1" dbClosed)) = true)
    by (vm_compute; reflexivity).
  split; [exact H|].
  exact (proj1 (deleteCar_then ist "S" toyHmac "c1" dbClosed (mkDate 2024 1 1)
                  (mkDate 2024 1 3) entropy alice
                  (request daily (mkTime 10 0) (mkTime 10 0)) H)).
Defined.

Lemma cancel_releases_witness :
  exists l1 l2,
    bookings db1 = l1 ++ booking1 :: l2
    /\ forall j sd ed,
         checkAvailability j sd ed
           (snd (cancelBooking 1700000000000 entropy alice "b1" db1))
         = checkAvailability j sd ed (mkDb (cars db1) (l1 ++ l2)).
Proof.
  apply cancel_releases.
  - reflexivity.
  - vm_compute. reflexivity.
Defined.


Lemma newestFirst_perm (l : list Booking) : Permutation (newestFirst l) l.
Proof. symmetry. apply Permutation_rev. Qed.

Lemma asStored_perm (l : list (string * Car)) : Permutation (asStored l) l.
Proof. reflexivity. Qed.

Lemma myBookings_page_witness :
  exists items pg,
    myBookings newestFirst alice 1 10 (StatusIs confirmed) db1
    = Ok 200 (items, pg)
    /\ (forall b oc,
          In (b, oc) items ->
          In b (bookings db1) /\ user b = user_id alice
          /\ matchesStatus (StatusIs confirmed) b = true
          /\ oc = cars db1 !! car b)
    /\ Z.of_nat (length items) <= 10
    /\ (hasNext pg = true <-> 1 < totalPages pg)
    /\ (items = [] <-> totalPages pg < 1).
Proof.
  apply (myBookings_page newestFirst newestFirst_perm alice 1 10
           (StatusIs confirmed) db1); vm_compute; discriminate.
Defined.

Lemma listCars_sound_witness :
  exists items pg,
    listCars asStored anyCar carQuery db1 = Ok 200 (items, pg)
    /\ (forall id c,
          In (id, c) items ->
          cars db1 !! id = Some c
          /\ isAvailable c = true /\ anyCar c = true
          /\ (forall m, q_minPrice carQuery = Some m -> m <= pricePerDay c)
          /\ (forall m, q_maxPrice carQuery = Some m -> pricePerDay c <= m)
          /\ (forall sd ed,
                q_startDate carQuery = Some sd -> q_endDate carQuery = Some ed ->
                checkAvailability id sd ed db1
                = Ok 200 (mkAvailability true
                            "Car is available for the selected dates")))
    /\ Z.of_nat (length items) <= q_limit carQuery
    /\ (hasNext pg = true <-> q_page carQuery < totalPages pg).
Proof.
  apply (listCars_sound asStored anyCar asStored_perm carQuery db1);
    vm_compute; discriminate.
Defined.

Lemma newBookingId_shape_witness :
  (exists suffix,
      newBookingId entropy = "CG" +:+ pretty (date_now entropy) +:+ suffix
      /\ (String.length suffix <= 5)%nat)
  /\ (newBookingId entropy
      = newBookingId (mkEntropy 1704067200001 "0.k3j9x2a7" "b2") ->
      date_now entropy = 1704067200001
      /\ toUpperCase (String.substring 2 5 (random36 entropy))
         = toUpperCase (String.substring 2 5 "0.k3j9x2a7")).
Proof.
  apply (newBookingId_shape entropy (mkEntropy 1704067200001 "0.k3j9x2a7" "b2")).
  vm_compute. reflexivity.
Defined.

(** An hourly booking from 10:00 to 12:00 of one date: two hours are asked
    for at the provider, and the paid request is then refused at the save. *)
Example same_day_hourly :
  snd (createRazorpayOrder ist "rzp_key" provider 1704000000000 alice
         sameDayForm emptyDb)
  = [mkOptions 40000 "INR" "receipt_order_1704000000000" 1]
  /\ verifyPayment ist "S" toyHmac entropy alice
       (mkVerify "order_1" "pay_1" (toyHmac "S" "order_1|pay_1") sameDayForm)
       emptyDb
     = (Err 500 "Server error during payment verification or booking creation",
        emptyDb).
Proof. vm_compute. split; reflexivity. Qed.

(** Deleting the car is refused while Alice's booking is confirmed and goes
    through once it is cancelled; her booking then shows without its car. *)
Example deleteCar_runs :
  deleteCar "c1" db1 = (Err 400 "Cannot delete car with active bookings", db1)
  /\ fst (deleteCar "c1" dbClosed) = Ok 200 "Car deleted successfully"
  /\ getBooking users alice "b1" (snd (deleteCar "c1" dbClosed))
     = Ok 200 (mkView (set_status cancelled booking1) None alice)
  /\ getBooking users bob "b1" db1 = Err 403 "Access denied".
Proof. vm_compute. repeat split. Qed.
